(** * Request orchestration of the truss examples: prompt formatting,
    generation parameters and the streaming front doors.

    The development embeds three pieces of the repository:
    - [Py]: the few Python values, exceptions and builtins the models use;
    - [Solar]: [solar-truss/model/model.py], the remote (Triton) front door;
    - [Llama]: [llama/llama-3-70b-chatqa/model/model.py], the local model.

    Request dictionaries are finite maps from key to value, exceptions are an
    explicit result type, and objects that the code mutates (the model's
    request counter, the channel to the engine) are threaded as state. *)

From Stdlib Require Import ZArith QArith Lia.
From Stdlib Require Import Strings.String Strings.Ascii Lists.List.
From Stdlib Require Import Numbers.DecimalString Numbers.DecimalNat Numbers.DecimalFacts.
From stdpp Require Import gmap strings list.

Import ListNotations.
Local Open Scope string_scope.

(** ** Python values and builtins *)

Module Py.

(** The exceptions the two models can raise. *)
Inductive exn : Type :=
| ValueError (msg : string)
| KeyError (key : string)
| TypeError (msg : string).

(** A call either returns a value or raises. *)
Inductive result (A : Type) : Type :=
| Ok (a : A)
| Raise (e : exn).
Arguments Ok {A} a.
Arguments Raise {A} e.

Definition bind {A B : Type} (r : result A) (k : A -> result B) : result B :=
  match r with
  | Ok a => k a
  | Raise e => Raise e
  end.

Definition returns {A : Type} (r : result A) : Prop :=
  exists a, r = Ok a.

Definition raises {A : Type} (r : result A) : Prop :=
  exists e, r = Raise e.

(** One conversation turn, the dictionary [{"role": ..., "content": ...}]. *)
Record message : Type := Message { role : string; content : string }.

(** The values a request dictionary holds. A float is carried as the rational
    its literal denotes: the code passes floats on and never computes on them. *)
#[local] Set Warnings "-register-all".
Inductive pyval : Type :=
| VNone
| VBool (b : bool)
| VInt (z : Z)
| VFloat (q : Q)
| VStr (s : string)
| VIntList (l : list Z)
| VMessages (l : list message)
| VDict (d : gmap string pyval).

(** [x is None] *)
Definition is_None (v : pyval) : bool :=
  match v with
  | VNone => true
  | _ => false
  end.

(** Truth value of an object, as [if x:] and [not x] test it. *)
Definition truthy (v : pyval) : bool :=
  match v with
  | VNone => false
  | VBool b => b
  | VInt z => negb (z =? 0)%Z
  | VFloat q => negb (Qnum q =? 0)%Z
  | VStr s => negb (String.eqb s "")
  | VIntList l => match l with [] => false | _ => true end
  | VMessages l => match l with [] => false | _ => true end
  | VDict d => negb (bool_decide (d = ∅))
  end.

(** [x == []] *)
Definition eq_empty_list (v : pyval) : bool :=
  match v with
  | VIntList [] => true
  | VMessages [] => true
  | _ => false
  end.

(** [d.get(k)]: the value, or [None] when the key is absent. *)
Definition get (d : gmap string pyval) (k : string) : pyval :=
  default VNone (d !! k).

(** [d.get(k, dflt)] *)
Definition get_default (d : gmap string pyval) (k : string) (dflt : pyval) : pyval :=
  default dflt (d !! k).

(** [d[k]]: raises [KeyError] when the key is absent. *)
Definition getitem (d : gmap string pyval) (k : string) : result pyval :=
  match d !! k with
  | Some v => Ok v
  | None => Raise (KeyError k)
  end.

(** [d.pop(k)]: the value and the dictionary without the key. *)
Definition pop (d : gmap string pyval) (k : string)
  : result (pyval * gmap string pyval) :=
  match d !! k with
  | Some v => Ok (v, delete k d)
  | None => Raise (KeyError k)
  end.

(** [d.pop(k, dflt)] *)
Definition pop_default (d : gmap string pyval) (k : string) (dflt : pyval)
  : pyval * gmap string pyval :=
  (default dflt (d !! k), delete k d).

(** [sep.join(l)] on a list of strings. *)
Fixpoint join (sep : string) (l : list string) : string :=
  match l with
  | [] => ""
  | [s] => s
  | s :: rest => s ++ sep ++ join sep rest
  end.

(** What [str.join] may be handed: an ordinary iterable, or the object an
    [async def] with [yield] returns. The second has [__aiter__] and no
    [__iter__]: it is not iterable. *)
Inductive stream : Type :=
| Iterable (items : list string)
| AsyncGenerator (items : list string).

(** The increments a consumer sees when it drains the stream with the loop
    that fits it ([for] or [async for]). *)
Definition drain (g : stream) : list string :=
  match g with
  | Iterable items => items
  | AsyncGenerator items => items
  end.

(** [sep.join(it)] *)
Definition str_join (sep : string) (it : stream) : result string :=
  match it with
  | Iterable items => Ok (join sep items)
  | AsyncGenerator _ => Raise (TypeError "can only join an iterable")
  end.

(** [str(n)] for a natural number: decimal, no leading zero. *)
Definition str_nat (n : nat) : string :=
  NilZero.string_of_uint (Nat.to_uint n).

(** [int(s)] for a string of decimal digits. *)
Definition int_str (s : string) : option nat :=
  option_map Nat.of_uint (NilZero.uint_of_string s).

End Py.

(** ** The remote front door: [solar-truss/model/model.py] *)

Module Solar.
Import Py.

Definition APPEND_ASSISTANT_TEMPLATE_TO_PROMPT : bool := true.
Definition APPEND_ASSISTANT_TEMPLATE_TO_PROMPT_STR : string := "<|im_start|>assistant".
Definition STOP_TOKEN : string := "<|im_end|>".

(** [schema.ModelInput], built from the keyword arguments. The class is not
    part of the model file. Its constructor has a closed list of parameters
    (which is why [predict] deletes ["messages"] before the call): keyword
    arguments it does not declare make the call raise [TypeError], see
    [new_model_input]. An object that was built keeps the arguments it was
    given and exposes [stream], whose value is the schema's default when the
    request has none. *)
Record ModelInput : Type := MkModelInput { kwargs : gmap string pyval }.

(** What the model has asked of the Triton client, oldest call first. *)
Inductive call : Type :=
| StartGrpcStream
| Infer (model_input : ModelInput).

(** The attributes of [Model] that [predict] reads or updates.
    [_request_id_counter] is the value [next] returns at the coming call of
    the [itertools.count] object. *)
Record Model : Type := MkModel {
  _request_id_counter : nat;
  uses_openai_api : bool;
  eos_token_id : pyval;
  triton_client : list call
}.

(** [Model.__init__]: the counter starts at 1; [load] fills in the rest. *)
Definition init (openai : bool) (eos : pyval) : Model :=
  {| _request_id_counter := 1;
     uses_openai_api := openai;
     eos_token_id := eos;
     triton_client := [] |}.

(** [next(self._request_id_counter)] *)
Definition next_request_id (self : Model) : nat * Model :=
  (_request_id_counter self,
   {| _request_id_counter := S (_request_id_counter self);
      uses_openai_api := uses_openai_api self;
      eos_token_id := eos_token_id self;
      triton_client := triton_client self |}).

(** A call on [self.triton_client], appended to the record of calls. *)
Definition client_call (c : call) (self : Model) : Model :=
  {| _request_id_counter := _request_id_counter self;
     uses_openai_api := uses_openai_api self;
     eos_token_id := eos_token_id self;
     triton_client := triton_client self ++ [c] |}.

(** The inner [generate] of [predict]: one increment per engine response,
    the stop token replaced by the empty string. *)
Fixpoint generate (result_iterator : list string) : list string :=
  match result_iterator with
  | [] => []
  | result :: rest =>
      if decide (result <> STOP_TOKEN)
      then result :: generate rest
      else "" :: generate rest
  end.

(** What [predict] returns: the async generator itself, a plain string, or
    the dictionary [{"text": ...}]. *)
Inductive response : Type :=
| Stream (g : stream)
| Text (s : string)
| TextDict (text : string).

Section Predict.

(** [os.getpid()] *)
Variable getpid : nat.

(** [tokenizer.apply_chat_template(messages, tokenize=False)] *)
Variable apply_chat_template : pyval -> string.

(** [format(v, "")] of a value that is not a [str], as an f-string field
    computes it. *)
Variable format_value : pyval -> string.

(** The responses the engine delivers for a submitted request, in order. *)
Variable engine : ModelInput -> list string.

(** The [stream] default of [schema.ModelInput]. *)
Variable stream_default : bool.

(** How [ModelInput.__init__] takes keyword arguments: [None] when they bind
    to its parameters, the message of the [TypeError] when they do not. *)
Variable rejects : gmap string pyval -> option string.

(** The call of the [ModelInput] constructor on the request as keyword
    arguments. *)
Definition new_model_input (model_input : gmap string pyval)
  : result ModelInput :=
  match rejects model_input with
  | Some msg => Raise (TypeError msg)
  | None => Ok (MkModelInput model_input)
  end.

(** A replacement field [{v}] of an f-string. *)
Definition fstring_field (v : pyval) : string :=
  match v with
  | VStr s => s
  | _ => format_value v
  end.

(** [model_input.stream] *)
Definition stream_flag (model_input : ModelInput) : bool :=
  truthy (get_default (kwargs model_input) "stream" (VBool stream_default)).

(** [if model_input.get(k) is None: model_input[k] = 500] *)
Definition default_budget (k : string) (model_input : gmap string pyval)
  : gmap string pyval :=
  if is_None (get model_input k)
  then <[k := VInt 500]> model_input
  else model_input.

(** What a call of [predict] leaves behind: the model, the caller's request
    dictionary (the code updates it in place until it rebinds the name to the
    [ModelInput]), and what the call returned or raised. *)
Record outcome : Type := MkOutcome {
  model_after : Model;
  request_after : gmap string pyval;
  returned : result response
}.

(** [Model.predict]. Mutations made before a [raise] stay. *)
Definition predict (self : Model) (model_input : gmap string pyval) : outcome :=
  let model_input := default_budget "max_tokens" model_input in
  let model_input := default_budget "max_new_tokens" model_input in
  let '(n, self) := next_request_id self in
  let model_input :=
    <["request_id" := VStr (str_nat getpid ++ str_nat n)]> model_input in
  let model_input := <["eos_token_id" := eos_token_id self]> model_input in
  let messages := get_default model_input "messages" (VMessages []) in
  let model_input := delete "messages" model_input in
  let prompt := get_default model_input "prompt" VNone in
  if negb (truthy prompt) && eq_empty_list messages
  then MkOutcome self model_input
         (Raise (ValueError "Prompt or messages must be provided"))
  else
    let model_input :=
      if uses_openai_api self && negb (truthy prompt)
      then <["prompt" := VStr (apply_chat_template messages)]> model_input
      else model_input in
    let appended :=
      if APPEND_ASSISTANT_TEMPLATE_TO_PROMPT
      then
        bind (getitem model_input "prompt") (fun p =>
        Ok (<["prompt" :=
                VStr (fstring_field p ++ APPEND_ASSISTANT_TEMPLATE_TO_PROMPT_STR)]>
              model_input))
      else Ok model_input in
    match appended with
    | Raise e => MkOutcome self model_input (Raise e)
    | Ok model_input =>
        let self := client_call StartGrpcStream self in
        let request := model_input in
        match new_model_input model_input with
        | Raise e => MkOutcome self request (Raise e)
        | Ok model_input =>
            let result_iterator := engine model_input in
            let self := client_call (Infer model_input) self in
            let generate_ := AsyncGenerator (generate result_iterator) in
            if stream_flag model_input
            then MkOutcome self request (Ok (Stream generate_))
            else if uses_openai_api self
            then MkOutcome self request
                   (bind (str_join "" generate_) (fun s => Ok (Text s)))
            else MkOutcome self request
                   (bind (str_join "" generate_) (fun s => Ok (TextDict s)))
        end
    end.

(** The request id a call of [predict] wrote into the request. *)
Definition request_id (o : outcome) : option string :=
  match request_after o !! "request_id" with
  | Some (VStr s) => Some s
  | _ => None
  end.

(** Successive calls of [predict] on one model, each on its own request;
    the outcomes are listed in call order. *)
Fixpoint serve (self : Model) (requests : list (gmap string pyval))
  : list outcome :=
  match requests with
  | [] => []
  | r :: rest =>
      let o := predict self r in
      o :: serve (model_after o) rest
  end.

(** *** The stages of [predict], named

    The request dictionary as [predict] has it after the defaults, the
    request id and the end-of-sequence id are written and ["messages"] is
    deleted; after the chat template is applied; and as it is submitted. *)

Definition staged (self : Model) (request : gmap string pyval)
  : gmap string pyval :=
  delete "messages"
    (<["eos_token_id" := eos_token_id self]>
       (<["request_id" :=
            VStr (str_nat getpid ++ str_nat (_request_id_counter self))]>
          (default_budget "max_new_tokens"
             (default_budget "max_tokens" request)))).

Definition templated (self : Model) (request : gmap string pyval)
  : gmap string pyval :=
  if uses_openai_api self && negb (truthy (get_default request "prompt" VNone))
  then <["prompt" :=
           VStr (apply_chat_template
                   (get_default request "messages" (VMessages [])))]>
         (staged self request)
  else staged self request.

Definition submitted (self : Model) (request : gmap string pyval) (p : pyval)
  : gmap string pyval :=
  <["prompt" :=
      VStr (fstring_field p ++ APPEND_ASSISTANT_TEMPLATE_TO_PROMPT_STR)]>
    (templated self request).

(** What becomes of a request once its prompt is written: the request a
    call leaves behind holds the prompt, and either the constructor of
    [ModelInput] rejects it, after the stream was started and before any
    inference, or the stream is started and the request, as it was left,
    is submitted for inference. *)
Definition handed_over (self : Model) (o : outcome) (prompt : string) : Prop :=
  request_after o !! "prompt" = Some (VStr prompt)
  /\ ((exists msg,
         rejects (request_after o) = Some msg
         /\ returned o = Raise (TypeError msg)
         /\ triton_client (model_after o)
            = (triton_client self ++ [StartGrpcStream])%list)
      \/ (rejects (request_after o) = None
          /\ exists mi,
               kwargs mi = request_after o
               /\ triton_client (model_after o)
                  = (triton_client self
                     ++ [StartGrpcStream; Infer mi])%list)).

End Predict.

(** *** Shapes of a request *)

(** No prompt: the key is absent, or holds [None] or the empty string. *)
Definition no_prompt (request : gmap string pyval) : Prop :=
  request !! "prompt" = None
  \/ request !! "prompt" = Some VNone
  \/ request !! "prompt" = Some (VStr "").

(** No messages: the key is absent or holds the empty list. *)
Definition no_messages (request : gmap string pyval) : Prop :=
  request !! "messages" = None
  \/ request !! "messages" = Some (VMessages []).

Definition has_prompt (request : gmap string pyval) (p : string) : Prop :=
  request !! "prompt" = Some (VStr p) /\ p <> "".

Definition has_messages (request : gmap string pyval) (msgs : list message)
  : Prop :=
  request !! "messages" = Some (VMessages msgs) /\ msgs <> [].

(** The request id of a call, read as an integer. *)
Definition request_number (o : outcome) : option nat :=
  match request_id o with
  | Some s => int_str s
  | None => None
  end.

(** *** Collaborators for the worked examples *)

(** A chat template in the ChatML style. *)
Definition chatml_template (v : pyval) : string :=
  match v with
  | VMessages l =>
      join "" (map (fun m => "<|im_start|>" ++ role m ++ " " ++ content m
                             ++ "<|im_end|>") l)
  | _ => ""
  end.

(** [format] of the values other than [str] that the examples use. *)
Definition format_scalar (v : pyval) : string :=
  match v with
  | VNone => "None"
  | VBool true => "True"
  | VBool false => "False"
  | _ => ""
  end.

(** An engine that answers every request with the responses of the
    end-to-end scenario. *)
Definition scenario_engine (_ : ModelInput) : list string :=
  ["4"; " is"; " the"; " answer"; STOP_TOKEN].

(** The parameters of a [ModelInput] constructor as the examples take it:
    the keys [predict] itself supplies and the usual generation options. *)
Definition declared_keywords : list string :=
  ["prompt"; "request_id"; "max_tokens"; "max_new_tokens"; "beam_width";
   "bad_words_list"; "stop_words_list"; "repetition_penalty"; "ignore_eos";
   "stream"; "eos_token_id"].

(** A constructor that rejects every keyword outside [declared_keywords]. *)
Definition schema_rejects (model_input : gmap string pyval) : option string :=
  if forallb (fun kv => bool_decide (fst kv ∈ declared_keywords))
       (map_to_list model_input)
  then None
  else Some "ModelInput.__init__() got an unexpected keyword argument".

(** [predict] with the example collaborators, in process 7. *)
Definition example_predict : Model -> gmap string pyval -> outcome :=
  predict 7 chatml_template format_scalar scenario_engine true schema_rejects.

(** *** What a call writes into the request *)

(** The value [predict] leaves under a token-budget key: the request's own
    value unless that is absent or [None]. *)
Definition budget_or_500 (v : option pyval) : pyval :=
  match v with
  | Some VNone | None => VInt 500
  | Some v => v
  end.

(** The keys [predict] writes or deletes. *)
Definition written_keys : list string :=
  ["max_tokens"; "max_new_tokens"; "request_id"; "eos_token_id"; "messages";
   "prompt"].

(** *** [Model.load] *)

(** [TrussTRTLLMConfiguration], as [load] reads it: whether an engine has
    to be built, and the two sections of which [load] reads one. *)
Record ServeConfig : Type := MkServeConfig {
  engine_repository : string;
  serve_tokenizer_repository : string;
  serve_tensor_parallel_count : nat;
  serve_pipeline_parallel_count : nat
}.

Record BuildConfig : Type := MkBuildConfig {
  huggingface_ckpt_repository : string;
  build_tensor_parallel_count : nat;
  build_pipeline_parallel_count : nat
}.

Record TrussTRTLLMConfiguration : Type := MkTrtLlm {
  requires_build : bool;
  serve_section : ServeConfig;
  build_section : BuildConfig
}.

(** What [load] asks of its collaborators, in the order it asks. *)
Inductive load_call : Type :=
| Ldconfig
| BuildEngine (dst : string)
| NewTritonServer
| CreateModelRepository (truss_data_dir : string)
    (engine_repository_path : option string)
    (huggingface_auth_token : option string)
| StartServer (world_size : nat) (env : gmap string string)
| NewTritonClient
| LoadTokenizer (repository : string) (token : option string).

Section Load.

(** The two keys of [constants] that name environment variables. *)
Variable HF_AUTH_KEY_CONSTANT : string.
Variable TOKENIZER_KEY_CONSTANT : string.

(** [AutoTokenizer.from_pretrained(repository, token=...).eos_token_id] *)
Variable tokenizer_eos : string -> option string -> pyval.

(** The truth value of [hf_access_token]. *)
Definition token_truthy (token : option string) : bool :=
  match token with
  | Some t => negb (String.eqb t "")
  | None => false
  end.

(** The [env] dictionary handed to [triton_server.start]. *)
Definition server_env (hf_access_token : option string)
  (tokenizer_repository : string) : gmap string string :=
  let env :=
    match hf_access_token with
    | Some t =>
        if token_truthy hf_access_token
        then <[HF_AUTH_KEY_CONSTANT := t]> ∅
        else ∅
    | None => ∅
    end in
  <[TOKENIZER_KEY_CONSTANT := tokenizer_repository]> env.

(** [Model.load]: the model with its attributes set, and the calls made.
    [tags] is [config.get("model_metadata", {}).get("tags", [])]. *)
Definition load (self : Model) (data_dir : string)
  (trtllm_config : TrussTRTLLMConfiguration) (tags : list string)
  (secrets : gmap string string) : Model * list load_call :=
  let openai := bool_decide ("openai-compatible" ∈ tags) in
  let hf_access_token := secrets !! "hf_access_token" in
  let built :=
    if requires_build trtllm_config then [BuildEngine data_dir] else [] in
  let '(engine_repository_path, tokenizer_repository, world_size) :=
    if negb (requires_build trtllm_config)
    then
      let serve := serve_section trtllm_config in
      (Some (engine_repository serve),
       serve_tokenizer_repository serve,
       serve_tensor_parallel_count serve * serve_pipeline_parallel_count serve)
    else
      let build := build_section trtllm_config in
      (None,
       huggingface_ckpt_repository build,
       build_tensor_parallel_count build * build_pipeline_parallel_count build)
  in
  let env := server_env hf_access_token tokenizer_repository in
  ({| _request_id_counter := _request_id_counter self;
      uses_openai_api := openai;
      eos_token_id := tokenizer_eos tokenizer_repository hf_access_token;
      triton_client := [] |},
   ([Ldconfig] ++ built
    ++ [NewTritonServer;
        CreateModelRepository data_dir engine_repository_path hf_access_token;
        StartServer world_size env;
        NewTritonClient;
        LoadTokenizer tokenizer_repository hf_access_token])%list).

End Load.

End Solar.

(** ** The local model: [llama/llama-3-70b-chatqa/model/model.py] *)

Module Llama.
Import Py.

Definition MAX_LENGTH : pyval := VInt 512.
Definition TEMPERATURE : pyval := VFloat (1 # 1).
Definition TOP_P : pyval := VFloat (95 # 100).
Definition TOP_K : pyval := VInt 40.
Definition REPETITION_PENALTY : pyval := VFloat (1 # 1).
Definition NO_REPEAT_NGRAM_SIZE : pyval := VInt 0.
Definition DO_SAMPLE : pyval := VBool true.
Definition DEFAULT_STREAM : pyval := VBool true.

Definition SYSTEM : string :=
  "System: This is a chat between a user and an artificial intelligence assistant. The assistant gives helpful, detailed, and polite answers to the user's questions based on the context. The assistant should also indicate when the answer cannot be found in the context.".
Definition INSTRUCTION : string :=
  "Please give a full and complete answer for the question.".

(** The line feed, and the separator ["\n\n"] built from it. *)
Definition LF : ascii := ascii_of_nat 10.
Definition LFLF : string := String LF (String LF "").

(** The first loop of [get_formatted_input]: the instruction goes in front of
    the content of the first item whose role is ["user"], then [break]. *)
Fixpoint instruct_first_user (messages : list message) : list message :=
  match messages with
  | [] => []
  | item :: rest =>
      if decide (role item = "user")
      then {| role := role item;
              content := INSTRUCTION ++ " " ++ content item |} :: rest
      else item :: instruct_first_user rest
  end.

(** One element of the list comprehension. *)
Definition render (item : message) : string :=
  if decide (role item = "user")
  then "User: " ++ content item
  else "Assistant: " ++ content item.

(** [get_formatted_input]: the messages as the call leaves them (the first
    loop updates the item in place) and the formatted input. *)
Definition get_formatted_input (messages : list message) (context : string)
  : list message * string :=
  let messages := instruct_first_user messages in
  let conversation :=
    join LFLF (map render messages) ++ LFLF ++ "Assistant:" in
  let formatted_input := SYSTEM ++ LFLF ++ context ++ LFLF ++ conversation in
  (messages, formatted_input).

(** What [Model] reads of [self.tokenizer]. [encode] is the call
    [tokenizer(text)], [decode_token] the text of one token id and
    [special] tells the ids that [skip_special_tokens=True] drops. *)
Record Tokenizer : Type := MkTokenizer {
  eos_token_id : Z;
  eot_id : Z;
  pad_token_id : pyval;
  encode : string -> list Z;
  decode_token : Z -> string;
  special : Z -> bool
}.

(** [tokenizer.decode(ids, skip_special_tokens=skip)] *)
Definition decode (tok : Tokenizer) (skip : bool) (ids : list Z) : string :=
  join "" (map (decode_token tok)
             (if skip then filter (fun t => negb (special tok t)) ids else ids)).

(** The messages and the context must have the types the formatter works
    on; anything else makes the loop or the concatenation raise. *)
Definition as_messages (v : pyval) : result (list message) :=
  match v with
  | VMessages l => Ok l
  | _ => Raise (TypeError "messages")
  end.

Definition as_str (v : pyval) : result string :=
  match v with
  | VStr s => Ok s
  | _ => Raise (TypeError "can only concatenate str to str")
  end.

(** The [generate_args] dictionary of [preprocess]. *)
Definition generate_args (tok : Tokenizer) (request : gmap string pyval)
  : gmap string pyval :=
  let terminators := [eos_token_id tok; eot_id tok] in
  <["max_length" := get_default request "max_tokens" MAX_LENGTH]>
  (<["temperature" := get_default request "temperature" TEMPERATURE]>
  (<["top_p" := get_default request "top_p" TOP_P]>
  (<["top_k" := get_default request "top_k" TOP_K]>
  (<["repetition_penalty" :=
       get_default request "repetition_penalty" REPETITION_PENALTY]>
  (<["no_repeat_ngram_size" :=
       get_default request "no_repeat_ngram_size" NO_REPEAT_NGRAM_SIZE]>
  (<["do_sample" := get_default request "do_sample" DO_SAMPLE]>
  (<["use_cache" := VBool true]>
  (<["eos_token_id" := VIntList terminators]>
  (<["pad_token_id" := pad_token_id tok]> ∅))))))))).

(** [Model.preprocess] *)
Definition preprocess (tok : Tokenizer) (request : gmap string pyval)
  : result (gmap string pyval) :=
  let args := generate_args tok request in
  bind (pop request "messages") (fun '(messages, request) =>
  bind (pop request "context") (fun '(context, request) =>
  bind (as_messages messages) (fun messages =>
  bind (as_str context) (fun context =>
  let request :=
    <["formatted_input" := VStr (snd (get_formatted_input messages context))]>
      request in
  let request := <["generate_args" := VDict args]> request in
  Ok request)))).

(** *** Generation *)

(** The reading of an integer parameter. *)
Definition as_nat (v : pyval) : nat :=
  match v with
  | VInt z => Z.to_nat z
  | _ => 0
  end.

(** The termination ids of a parameter set. *)
Definition terminators_of (args : gmap string pyval) : list Z :=
  match args !! "eos_token_id" with
  | Some (VIntList l) => l
  | Some (VInt z) => [z]
  | _ => []
  end.

Section Generation.

(** The model proper, over one run of generation: the token it produces
    after a given sequence, under given parameters. Within a run every
    sequence is extended once, so the tokens of any run are such a function.
    With [do_sample] true, the default, and no seed set by the code, another
    run may be another function; with [do_sample] false the choice is the
    model's own and every run is the same function. A statement about one
    call holds for every run; a statement that says two calls give the same
    tokens assumes [do_sample] false. *)
Variable next_token : gmap string pyval -> list Z -> Z.

Variable tok : Tokenizer.

(** One token at a time until a termination id is produced or the budget of
    new tokens is used up. *)
Fixpoint generate_loop (budget : nat) (args : gmap string pyval)
  (ids : list Z) : list Z :=
  match budget with
  | O => ids
  | S budget' =>
      let t := next_token args ids in
      if existsb (Z.eqb t) (terminators_of args)
      then ids ++ [t]
      else generate_loop budget' args (ids ++ [t])
  end.

(** Modelled from the documentation of the transformers library, of which
    [model.generate] is a method: [max_length] bounds the length of the whole
    output, prompt included; [max_new_tokens] bounds the number of tokens
    produced after the prompt and, when both are given, takes precedence.
    The output starts with the prompt. The library refuses a
    [max_new_tokens] that is not positive and a prompt that is not shorter
    than [max_length]; the budget is that of the other calls, and a
    statement about a budget other than that of a worked example assumes
    its call is one of them. *)
Definition new_token_budget (args : gmap string pyval)
  (max_new_tokens : option pyval) (input_ids : list Z) : nat :=
  match max_new_tokens with
  | Some n => as_nat n
  | None => as_nat (get args "max_length") - List.length input_ids
  end.

Definition model_generate (input_ids : list Z) (args : gmap string pyval)
  (max_new_tokens : option pyval) : list Z :=
  generate_loop (new_token_budget args max_new_tokens input_ids) args input_ids.

(** [TextIteratorStreamer(self.tokenizer)]: the prompt is not skipped and no
    decoding option is set, so the pieces put together are the decoding of
    every token with the special ones kept. The pieces are taken one per
    token; where the library cuts them does not change what they add up to,
    and statements are made about the pieces put together. *)
Definition streamer (ids : list Z) : list string :=
  map (decode_token tok) ids.

(** [Model.stream]: [generate] runs with the generation config built from
    the arguments and with [max_new_tokens] set to their ["max_length"]. *)
Definition stream (input_ids : list Z) (generation_args : gmap string pyval)
  : result Py.stream :=
  bind (getitem generation_args "max_length") (fun max_length =>
  let outputs := model_generate input_ids generation_args (Some max_length) in
  Ok (Iterable (streamer outputs))).

(** What [Model.predict] returns. *)
Inductive response : Type :=
| Streamed (g : Py.stream)
| Output (output : string).

Definition as_args (v : pyval) : result (gmap string pyval) :=
  match v with
  | VDict d => Ok d
  | _ => Raise (TypeError "argument after ** must be a mapping")
  end.

(** [Model.predict] *)
Definition predict (request : gmap string pyval) : result response :=
  bind (pop request "formatted_input") (fun '(formatted_input, request) =>
  let '(stream_, request) := pop_default request "stream" DEFAULT_STREAM in
  bind (pop request "generate_args") (fun '(generation_args, request) =>
  bind (as_str formatted_input) (fun formatted_input =>
  let input_ids := encode tok formatted_input in
  bind (as_args generation_args) (fun generation_args =>
  if truthy stream_
  then bind (stream input_ids generation_args) (fun g => Ok (Streamed g))
  else
    let outputs := model_generate input_ids generation_args None in
    let output_text := decode tok true outputs in
    Ok (Output output_text))))).

(** Whether generation under a budget ends on a termination id. *)
Fixpoint stops_within (budget : nat) (args : gmap string pyval)
  (ids : list Z) : bool :=
  match budget with
  | O => false
  | S budget' =>
      let t := next_token args ids in
      if existsb (Z.eqb t) (terminators_of args)
      then true
      else stops_within budget' args (ids ++ [t])
  end.

End Generation.

(** A request goes through [preprocess] and then [predict], in the order
    the serving framework calls them. *)
Definition handle (next_token : gmap string pyval -> list Z -> Z)
  (tok : Tokenizer) (request : gmap string pyval) : result response :=
  bind (preprocess tok request) (predict next_token tok).

(** The whole text of a response: the increments of a stream put together,
    or the output of the non-streaming path. *)
Definition text_of (r : result response) : option string :=
  match r with
  | Ok (Streamed g) => Some (join "" (drain g))
  | Ok (Output s) => Some s
  | Raise _ => None
  end.

(** *** Counting the instruction *)

(** The number of positions of [s] at which [p] starts. *)
Fixpoint occurrences (p s : string) : nat :=
  match s with
  | "" => 0
  | String _ rest => (if String.prefix p s then 1 else 0) + occurrences p rest
  end.

Fixpoint has_char (c : ascii) (s : string) : bool :=
  match s with
  | "" => false
  | String x rest => Ascii.eqb c x || has_char c rest
  end.

Definition is_user (item : message) : bool :=
  bool_decide (role item = "user").

Definition total (l : list nat) : nat := fold_right Nat.add 0 l.

(** *** The sampling fields *)

(** Request key, parameter key and default of the seven sampling fields; the
    defaults are written out as the constants of the module define them. *)
Definition sampling_fields : list (string * string * pyval) :=
  [ ("max_tokens", "max_length", VInt 512);
    ("temperature", "temperature", VFloat (1 # 1));
    ("top_p", "top_p", VFloat (95 # 100));
    ("top_k", "top_k", VInt 40);
    ("repetition_penalty", "repetition_penalty", VFloat (1 # 1));
    ("no_repeat_ngram_size", "no_repeat_ngram_size", VInt 0);
    ("do_sample", "do_sample", VBool true) ].

(** The parameter holds the request's value when the request has the key,
    and the default otherwise. *)
Definition override_or_default (request args : gmap string pyval)
  (field : string * string * pyval) : Prop :=
  let '(key, param, dflt) := field in
  (forall v, request !! key = Some v -> args !! param = Some v)
  /\ (request !! key = None -> args !! param = Some dflt).

(** *** A model and a tokenizer for the worked examples *)

(** One token per character; the ids 0 and 1 are the special ones. *)
Definition char_tokenizer : Tokenizer :=
  {| eos_token_id := 0;
     eot_id := 1;
     pad_token_id := VNone;
     encode := fun s =>
       map (fun c => Z.of_nat (nat_of_ascii c)) (list_ascii_of_string s);
     decode_token := fun t => String (ascii_of_nat (Z.to_nat t)) "";
     special := fun t => (t <? 2)%Z |}.

(** A model that never produces a termination id: it repeats the letter a. *)
Definition babbler (_ : gmap string pyval) (_ : list Z) : Z := 97.

(** The request of the first end-to-end scenario. *)
Definition question : gmap string pyval :=
  <["messages" := VMessages [Message "user" "What is 2+2?"]]>
    (<["context" := VStr ""]> ∅).

(** The sampling fields other than the length. *)
Definition other_sampling_keys : list string :=
  ["temperature"; "top_p"; "top_k"; "repetition_penalty";
   "no_repeat_ngram_size"; "do_sample"].

(** The sampling fields other than the length and [do_sample]. *)
Definition tuning_keys : list string :=
  ["temperature"; "top_p"; "top_k"; "repetition_penalty";
   "no_repeat_ngram_size"].

(** The keys of the generation parameters. *)
Definition parameter_keys : gset string :=
  {[ "max_length"; "temperature"; "top_p"; "top_k"; "repetition_penalty";
     "no_repeat_ngram_size"; "do_sample"; "use_cache"; "eos_token_id";
     "pad_token_id" ]}.

(** A model that says the letter a twice and then the end-of-sequence id of
    [char_tokenizer]. *)
Definition brief (_ : gmap string pyval) (ids : list Z) : Z :=
  match rev ids with
  | 97%Z :: 97%Z :: _ => 0%Z
  | _ => 97%Z
  end.

End Llama.

(** * Properties *)

Import Py.

(** ** Decimal strings: [str] and [int] on natural numbers *)

Section DecimalStrings.

Lemma of_uint_acc_digits (d : Decimal.uint) (acc : nat) :
  Nat.of_uint_acc d acc = acc * 10 ^ Decimal.nb_digits d + Nat.of_uint d.
Proof.
  unfold Nat.of_uint. revert acc.
  induction d; intros acc; simpl Nat.of_uint_acc; simpl Decimal.nb_digits;
    [ simpl; lia | .. ];
    match goal with
    | |- Nat.of_uint_acc d ?X = _ + Nat.of_uint_acc d ?Y =>
        rewrite (IHd X), (IHd Y)
    end;
    rewrite !Nat.tail_mul_spec, Nat.pow_succ_r'; lia.
Qed.

Lemma to_uint_nonnil (n : nat) : Nat.to_uint n <> Decimal.Nil.
Proof.
  intros H. pose proof (Unsigned.of_to n) as E. rewrite H in E. simpl in E.
  subst n. discriminate H.
Qed.

Lemma str_nat_digits (n : nat) :
  str_nat n = NilEmpty.string_of_uint (Nat.to_uint n).
Proof.
  unfold str_nat, NilZero.string_of_uint.
  pose proof (to_uint_nonnil n). destruct (Nat.to_uint n); congruence.
Qed.

Lemma uint_of_string_length (s : string) (d : Decimal.uint) :
  NilEmpty.uint_of_string s = Some d -> Decimal.nb_digits d = String.length s.
Proof.
  revert d. induction s as [|a s IH]; simpl; intros d.
  - intros [= <-]. reflexivity.
  - destruct (NilEmpty.uint_of_string s) as [d'|]; [|intros [=]].
    intros H. apply uint_of_char_spec in H.
    specialize (IH d' eq_refl).
    intuition subst; simpl; congruence.
Qed.

(** Reading two digit strings one after the other is reading the second
    with the first as the accumulator. *)
Lemma uint_of_string_app (s1 s2 : string) (d1 d2 : Decimal.uint) :
  NilEmpty.uint_of_string s1 = Some d1 ->
  NilEmpty.uint_of_string s2 = Some d2 ->
  exists d, NilEmpty.uint_of_string (s1 ++ s2) = Some d /\
            forall acc, Nat.of_uint_acc d acc
                        = Nat.of_uint_acc d2 (Nat.of_uint_acc d1 acc).
Proof.
  intros H1 H2. revert d1 H1.
  induction s1 as [|a s1 IH]; simpl; intros d1.
  - intros [= <-]. exists d2. split; [assumption | reflexivity].
  - destruct (NilEmpty.uint_of_string s1) as [d1'|]; [|intros [=]].
    destruct (IH d1' eq_refl) as (d & -> & Hd).
    intros H. apply uint_of_char_spec in H.
    intuition subst; simpl; eexists; (split; [reflexivity|]);
      intros acc; simpl; apply Hd.
Qed.

Lemma int_str_app (s1 s2 : string) (n1 n2 : nat) :
  s1 <> "" ->
  int_str s1 = Some n1 -> int_str s2 = Some n2 ->
  int_str (s1 ++ s2) = Some (n1 * 10 ^ String.length s2 + n2).
Proof.
  unfold int_str, NilZero.uint_of_string. intros Hne H1 H2.
  destruct s1 as [|a s1]; [congruence|].
  destruct s2 as [|b s2]; [discriminate H2|].
  change (String a s1 ++ String b s2) with (String a (s1 ++ String b s2)).
  destruct (NilEmpty.uint_of_string (String a s1)) as [d1|] eqn:E1;
    [|discriminate H1].
  destruct (NilEmpty.uint_of_string (String b s2)) as [d2|] eqn:E2;
    [|discriminate H2].
  destruct (uint_of_string_app _ _ _ _ E1 E2) as (d & Ed & Hd).
  simpl in H1, H2. injection H1 as <-. injection H2 as <-.
  change (String a (s1 ++ String b s2)) with (String a s1 ++ String b s2).
  rewrite Ed. simpl. f_equal. unfold Nat.of_uint at 1. rewrite Hd.
  rewrite of_uint_acc_digits. rewrite (uint_of_string_length _ _ E2).
  reflexivity.
Qed.

Lemma int_str_nat (n : nat) : int_str (str_nat n) = Some n.
Proof.
  unfold int_str. unfold str_nat.
  rewrite NilZero.usu by apply to_uint_nonnil.
  simpl. f_equal. apply Unsigned.of_to.
Qed.

Lemma str_nat_nonempty (n : nat) : str_nat n <> "".
Proof.
  intros H. pose proof (int_str_nat n) as E. rewrite H in E. discriminate E.
Qed.

Lemma nb_digits_succ (d : Decimal.uint) :
  Decimal.nb_digits d <= Decimal.nb_digits (Decimal.Little.succ d).
Proof. induction d; simpl; lia. Qed.

Lemma str_nat_length (n : nat) :
  String.length (str_nat n) = Decimal.nb_digits (Nat.to_uint n).
Proof.
  symmetry. apply uint_of_string_length.
  rewrite str_nat_digits. apply NilEmpty.usu.
Qed.

(** A larger number has at least as many digits. *)
Lemma str_nat_length_mono (n m : nat) :
  n <= m -> String.length (str_nat n) <= String.length (str_nat m).
Proof.
  rewrite !str_nat_length. rewrite !Unsigned.to_uint_alt, !nb_digits_rev.
  induction 1 as [|m _ IH]; [lia|].
  rewrite Unsigned.to_lu_succ.
  pose proof (nb_digits_succ (Unsigned.to_lu m)). lia.
Qed.

(** The integer that the digits of [p] followed by the digits of [n] spell. *)
Lemma request_number_app (p n : nat) :
  int_str (str_nat p ++ str_nat n)
  = Some (p * 10 ^ String.length (str_nat n) + n).
Proof.
  apply int_str_app; auto using str_nat_nonempty, int_str_nat.
Qed.

Lemma request_number_lt (p n m : nat) :
  n < m ->
  p * 10 ^ String.length (str_nat n) + n
  < p * 10 ^ String.length (str_nat m) + m.
Proof.
  intros H.
  assert (10 ^ String.length (str_nat n) <= 10 ^ String.length (str_nat m)).
  { apply Nat.pow_le_mono_r; [lia|]. apply str_nat_length_mono. lia. }
  nia.
Qed.

End DecimalStrings.

(** ** The remote stream *)

Section RemoteStream.
Import Solar.

Lemma generate_map (rs : list string) :
  generate rs = map (fun r => if decide (r = STOP_TOKEN) then "" else r) rs.
Proof.
  induction rs as [|r rs IH]; simpl; [reflexivity|]. rewrite IH.
  destruct (decide (r <> STOP_TOKEN)), (decide (r = STOP_TOKEN));
    first [reflexivity | contradiction].
Qed.

Lemma generate_length (rs : list string) :
  List.length (generate rs) = List.length rs.
Proof. rewrite generate_map. apply length_map. Qed.


(** C3: the remote streaming client yields one increment per engine response,
    in arrival order: the empty string for a response equal to the stop
    token, the response itself otherwise. No increment is the stop token, and
    the responses ["4"; " is"; " the"; " answer"; STOP] give the increments
    ["4"; " is"; " the"; " answer"; ""]. *)
Theorem generate_yields_each_response (rs : list string) :
  generate rs = map (fun r => if decide (r = STOP_TOKEN) then "" else r) rs
  /\ List.length (generate rs) = List.length rs
  /\ Forall (fun increment => increment <> STOP_TOKEN) (generate rs)
  /\ generate ["4"; " is"; " the"; " answer"; STOP_TOKEN]
     = ["4"; " is"; " the"; " answer"; ""].
Proof.
  split; [apply generate_map|]. split; [apply generate_length|]. split.
  - induction rs as [|r rs IH]; simpl; [constructor|].
    destruct (decide (r <> STOP_TOKEN)); constructor;
      first [assumption | discriminate].
  - reflexivity.
Qed.




End RemoteStream.

(** ** The remote front door *)

Section RemotePredict.
Import Solar.

Variable getpid : nat.
Variable apply_chat_template : pyval -> string.
Variable format_value : pyval -> string.
Variable engine : ModelInput -> list string.
Variable stream_default : bool.
Variable rejects : gmap string pyval -> option string.

Local Abbreviation predict :=
  (Solar.predict getpid apply_chat_template format_value engine stream_default
     rejects).
Local Abbreviation serve :=
  (Solar.serve getpid apply_chat_template format_value engine stream_default
     rejects).
Local Abbreviation handed_over := (Solar.handed_over rejects).
Local Abbreviation staged := (Solar.staged getpid).
Local Abbreviation templated := (Solar.templated getpid apply_chat_template).
Local Abbreviation submitted :=
  (Solar.submitted getpid apply_chat_template format_value).

(** Lookups in the staged request go through the keys [predict] wrote. *)
Ltac map_lookups :=
  unfold Solar.staged, default_budget;
  repeat (case_match; simplify_map_eq); try reflexivity.

Lemma staged_prompt self req : staged self req !! "prompt" = req !! "prompt".
Proof. map_lookups. Qed.

Lemma staged_stream self req : staged self req !! "stream" = req !! "stream".
Proof. map_lookups. Qed.

Lemma staged_request_id self req :
  staged self req !! "request_id"
  = Some (VStr (str_nat getpid ++ str_nat (_request_id_counter self))).
Proof. map_lookups. Qed.

Lemma staged_messages self req :
  <["eos_token_id" := eos_token_id self]>
    (<["request_id" :=
         VStr (str_nat getpid ++ str_nat (_request_id_counter self))]>
       (default_budget "max_new_tokens" (default_budget "max_tokens" req)))
  !! "messages" = req !! "messages".
Proof. map_lookups. Qed.

Lemma staged_get_prompt self req d :
  get_default (staged self req) "prompt" d = get_default req "prompt" d.
Proof. unfold get_default. now rewrite staged_prompt. Qed.

Lemma staged_get_messages self req d :
  get_default
    (<["eos_token_id" := eos_token_id self]>
       (<["request_id" :=
            VStr (str_nat getpid ++ str_nat (_request_id_counter self))]>
          (default_budget "max_new_tokens" (default_budget "max_tokens" req))))
    "messages" d
  = get_default req "messages" d.
Proof. unfold get_default. now rewrite staged_messages. Qed.

Lemma templated_prompt self req :
  templated self req !! "prompt"
  = if uses_openai_api self && negb (truthy (get_default req "prompt" VNone))
    then Some (VStr (apply_chat_template
                       (get_default req "messages" (VMessages []))))
    else req !! "prompt".
Proof.
  unfold Solar.templated.
  case_match; [apply lookup_insert_eq | apply staged_prompt].
Qed.

Lemma templated_other self req k :
  k <> "prompt" -> templated self req !! k = staged self req !! k.
Proof.
  intros Hk. unfold Solar.templated. case_match; [|reflexivity].
  apply lookup_insert_ne. congruence.
Qed.

(** [predict], branch by branch. The two branches that do not stream both
    end in [str.join] on the async generator. *)
Lemma predict_eq self req :
  predict self req =
  let self1 := snd (next_request_id self) in
  if negb (truthy (get_default req "prompt" VNone))
     && eq_empty_list (get_default req "messages" (VMessages []))
  then MkOutcome self1 (staged self req)
         (Raise (ValueError "Prompt or messages must be provided"))
  else
    match templated self req !! "prompt" with
    | None => MkOutcome self1 (templated self req) (Raise (KeyError "prompt"))
    | Some p =>
        match rejects (submitted self req p) with
        | Some msg =>
            MkOutcome (client_call StartGrpcStream self1)
              (submitted self req p) (Raise (TypeError msg))
        | None =>
            let mi := MkModelInput (submitted self req p) in
            MkOutcome
              (client_call (Infer mi) (client_call StartGrpcStream self1))
              (submitted self req p)
              (if stream_flag stream_default mi
               then Ok (Stream (AsyncGenerator (generate (engine mi))))
               else Raise (TypeError "can only join an iterable"))
        end
    end.
Proof.
  unfold Solar.predict, Solar.submitted, Solar.templated, new_model_input.
  cbn [next_request_id snd eos_token_id uses_openai_api].
  fold (staged self req).
  rewrite !staged_get_prompt, !staged_get_messages.
  destruct (negb (truthy (get_default req "prompt" VNone))
            && eq_empty_list (get_default req "messages" (VMessages [])));
    [reflexivity|].
  cbn [APPEND_ASSISTANT_TEMPLATE_TO_PROMPT]. unfold getitem.
  destruct (uses_openai_api self
            && negb (truthy (get_default req "prompt" VNone))) eqn:Ht.
  - rewrite !lookup_insert_eq. cbn [bind].
    destruct (rejects _); [reflexivity|].
    destruct (stream_flag stream_default _); [reflexivity|].
    destruct (uses_openai_api self); reflexivity.
  - destruct (staged self req !! "prompt") as [p|]; cbn [bind]; [|reflexivity].
    destruct (rejects _); [reflexivity|].
    destruct (stream_flag stream_default _); [reflexivity|].
    destruct (uses_openai_api self); reflexivity.
Qed.

Lemma submitted_stream self req p :
  stream_flag stream_default (MkModelInput (submitted self req p))
  = truthy (get_default req "stream" (VBool stream_default)).
Proof.
  unfold stream_flag, get_default, Solar.submitted. cbn [kwargs].
  rewrite lookup_insert_ne by congruence.
  rewrite templated_other by congruence. rewrite staged_stream. reflexivity.
Qed.

Lemma no_prompt_falsy req :
  no_prompt req -> truthy (get_default req "prompt" VNone) = false.
Proof. unfold get_default. intros [-> | [-> | ->]]; reflexivity. Qed.

Lemma no_messages_empty req :
  no_messages req ->
  eq_empty_list (get_default req "messages" (VMessages [])) = true.
Proof. unfold get_default. intros [-> | ->]; reflexivity. Qed.

Lemma has_prompt_truthy req p :
  has_prompt req p -> truthy (get_default req "prompt" VNone) = true.
Proof.
  unfold get_default. intros [-> Hp]. simpl.
  destruct (String.eqb_spec p ""); [contradiction | reflexivity].
Qed.

Lemma has_messages_nonempty req msgs :
  has_messages req msgs ->
  eq_empty_list (get_default req "messages" (VMessages [])) = false.
Proof.
  unfold get_default. intros [-> Hm]. simpl.
  destruct msgs; [contradiction | reflexivity].
Qed.

(** A request that passes the check and has a prompt to extend: what the
    call leaves behind, whether or not the constructor takes the request. *)
Lemma predict_prepared self req :
  negb (truthy (get_default req "prompt" VNone))
    && eq_empty_list (get_default req "messages" (VMessages [])) = false ->
  forall p, templated self req !! "prompt" = Some p ->
  request_after (predict self req) = submitted self req p
  /\ match rejects (submitted self req p) with
     | Some msg =>
         returned (predict self req) = Raise (TypeError msg)
         /\ model_after (predict self req)
            = client_call StartGrpcStream (snd (next_request_id self))
     | None =>
         returned (predict self req)
         = (if truthy (get_default req "stream" (VBool stream_default))
            then Ok (Stream (AsyncGenerator
                               (generate
                                  (engine (MkModelInput (submitted self req p))))))
            else Raise (TypeError "can only join an iterable"))
         /\ model_after (predict self req)
            = client_call (Infer (MkModelInput (submitted self req p)))
                (client_call StartGrpcStream (snd (next_request_id self)))
     end.
Proof.
  intros Hc p Hp. rewrite predict_eq. cbn zeta. rewrite Hc, Hp.
  destruct (rejects (submitted self req p)) as [msg|];
    cbn [request_after returned model_after].
  - repeat split.
  - rewrite submitted_stream. repeat split.
Qed.

Lemma calls_after_start self :
  triton_client (client_call StartGrpcStream (snd (next_request_id self)))
  = (triton_client self ++ [StartGrpcStream])%list.
Proof. reflexivity. Qed.

Lemma calls_after_submit self mi :
  triton_client
    (client_call (Infer mi)
       (client_call StartGrpcStream (snd (next_request_id self))))
  = (triton_client self ++ [StartGrpcStream; Infer mi])%list.
Proof. simpl. now rewrite <- app_assoc. Qed.

(** The same, in the words of [handed_over]. *)
Lemma predict_handed_over self req :
  negb (truthy (get_default req "prompt" VNone))
    && eq_empty_list (get_default req "messages" (VMessages [])) = false ->
  forall p, templated self req !! "prompt" = Some p ->
  handed_over self (predict self req)
    (fstring_field format_value p ++ APPEND_ASSISTANT_TEMPLATE_TO_PROMPT_STR).
Proof.
  intros Hc p Hp.
  destruct (predict_prepared self req Hc p Hp) as [Hreq Hrest].
  unfold Solar.handed_over. rewrite Hreq. split.
  - unfold Solar.submitted. apply lookup_insert_eq.
  - destruct (rejects (submitted self req p)) as [msg|];
      destruct Hrest as [Hret Hmodel]; rewrite Hmodel.
    + left. exists msg. split; [reflexivity|]. split; [exact Hret|].
      apply calls_after_start.
    + right. split; [reflexivity|].
      exists (MkModelInput (submitted self req p)). split; [reflexivity|].
      apply calls_after_submit.
Qed.

(** C1, on the code: a request whose stream flag is false never gets its
    text. [predict] raises: the check's [ValueError], the [KeyError] of the
    missing prompt, the [TypeError] of a request the constructor of
    [ModelInput] does not take or, once the request is submitted, the
    [TypeError] of [str.join] on the async generator. *)
Theorem predict_without_stream_raises self req :
  truthy (get_default req "stream" (VBool stream_default)) = false ->
  returned (predict self req)
    = Raise (ValueError "Prompt or messages must be provided")
  \/ returned (predict self req) = Raise (KeyError "prompt")
  \/ returned (predict self req)
     = Raise (TypeError "can only join an iterable")
  \/ exists msg,
       rejects (request_after (predict self req)) = Some msg
       /\ returned (predict self req) = Raise (TypeError msg).
Proof.
  intros Hs. rewrite predict_eq. cbn zeta.
  destruct (negb _ && _); [left; reflexivity | right].
  destruct (templated self req !! "prompt") as [p|]; [right | left; reflexivity].
  destruct (rejects (submitted self req p)) as [msg|] eqn:Hr;
    cbn [returned request_after].
  - right. exists msg. split; [exact Hr | reflexivity].
  - left. rewrite submitted_stream, Hs. reflexivity.
Qed.

(** C5: with no prompt and no messages [predict] raises the [ValueError] and
    the Triton client has seen no call; with a non-empty prompt or non-empty
    messages that error is not raised. *)
Theorem invalid_request_fails_fast self req :
  (no_prompt req -> no_messages req ->
   returned (predict self req)
     = Raise (ValueError "Prompt or messages must be provided")
   /\ triton_client (model_after (predict self req)) = triton_client self)
  /\ ((exists p, has_prompt req p) \/ (exists msgs, has_messages req msgs) ->
      forall msg, returned (predict self req) <> Raise (ValueError msg)).
Proof.
  split.
  - intros Hp Hm. rewrite predict_eq. cbn zeta.
    rewrite (no_prompt_falsy _ Hp), (no_messages_empty _ Hm).
    split; reflexivity.
  - intros Hgiven msg. rewrite predict_eq. cbn zeta.
    assert (negb (truthy (get_default req "prompt" VNone))
            && eq_empty_list (get_default req "messages" (VMessages []))
            = false) as ->.
    { destruct Hgiven as [[p Hp] | [msgs Hm]].
      - now rewrite (has_prompt_truthy _ _ Hp).
      - rewrite (has_messages_nonempty _ _ Hm). apply andb_false_r. }
    destruct (templated self req !! "prompt"); cbn [returned]; [|discriminate].
    destruct (rejects _); cbn [returned]; [discriminate|].
    destruct (stream_flag _ _); discriminate.
Qed.

(** C8: in chat-template mode (chat-compatible backend, non-empty messages,
    no prompt) the prompt that [predict] prepares is the rendering of the
    messages followed by the assistant marker; in raw-prompt mode (a
    non-empty prompt) it is the prompt followed by the marker. In both modes
    the request handed to the engine is the prepared one, so the prompt the
    engine gets ends with the marker; the engine gets it unless the
    constructor of [ModelInput] rejects the request. *)
Theorem prompt_ends_with_marker self req :
  (forall msgs,
     uses_openai_api self = true -> has_messages req msgs -> no_prompt req ->
     handed_over self (predict self req)
       (apply_chat_template (VMessages msgs)
        ++ APPEND_ASSISTANT_TEMPLATE_TO_PROMPT_STR))
  /\ (forall p,
        has_prompt req p ->
        handed_over self (predict self req)
          (p ++ APPEND_ASSISTANT_TEMPLATE_TO_PROMPT_STR)).
Proof.
  split.
  - intros msgs Ho Hm Hp.
    pose proof (no_prompt_falsy _ Hp) as Hf.
    pose proof (has_messages_nonempty _ _ Hm) as He.
    assert (templated self req !! "prompt"
            = Some (VStr (apply_chat_template (VMessages msgs)))) as Ht.
    { rewrite templated_prompt, Ho, Hf. simpl.
      unfold get_default. destruct Hm as [-> _]. reflexivity. }
    apply (predict_handed_over self req) with
      (p := VStr (apply_chat_template (VMessages msgs)));
      [rewrite He; apply andb_false_r | exact Ht].
  - intros p Hp.
    pose proof (has_prompt_truthy _ _ Hp) as Hf.
    assert (templated self req !! "prompt" = Some (VStr p)) as Ht.
    { rewrite templated_prompt, Hf, andb_false_r. apply Hp. }
    apply (predict_handed_over self req) with (p := VStr p);
      [now rewrite Hf | exact Ht].
Qed.

(** C10, as the code has it: with a backend that is not chat-compatible and
    non-empty messages, [predict] raises [KeyError] when the request has no
    ["prompt"] key, before any call to the engine. When the key is there,
    whatever it holds, no [KeyError] is raised: the value is formatted and
    the marker appended, and the request goes the way of every prepared
    request (submitted, unless the constructor of [ModelInput] rejects it). *)
Theorem missing_prompt_key self req msgs :
  uses_openai_api self = false -> has_messages req msgs ->
  (req !! "prompt" = None ->
   returned (predict self req) = Raise (KeyError "prompt")
   /\ triton_client (model_after (predict self req)) = triton_client self)
  /\ (forall v, req !! "prompt" = Some v ->
      (forall k, returned (predict self req) <> Raise (KeyError k))
      /\ handed_over self (predict self req)
           (fstring_field format_value v
            ++ APPEND_ASSISTANT_TEMPLATE_TO_PROMPT_STR)).
Proof.
  intros Ho Hm.
  pose proof (has_messages_nonempty _ _ Hm) as He.
  assert (negb (truthy (get_default req "prompt" VNone))
          && eq_empty_list (get_default req "messages" (VMessages []))
          = false) as Hc by (rewrite He; apply andb_false_r).
  assert (templated self req !! "prompt" = req !! "prompt") as Ht.
  { rewrite templated_prompt, Ho. reflexivity. }
  split.
  - intros Hnone. rewrite predict_eq. cbn zeta.
    rewrite Hc, Ht, Hnone. split; reflexivity.
  - intros v Hv. rewrite Hv in Ht. split.
    + intros k. destruct (predict_prepared self req Hc v Ht) as [_ Hrest].
      destruct (rejects (submitted self req v));
        destruct Hrest as [Hret _]; rewrite Hret; [discriminate|].
      destruct (truthy (get_default req "stream" _)); discriminate.
    + exact (predict_handed_over self req Hc v Ht).
Qed.

(** Every call writes the process id followed by the counter value into the
    request and moves the counter on, whichever way the call ends. *)
Lemma predict_request_id self req :
  request_id (predict self req)
    = Some (str_nat getpid ++ str_nat (_request_id_counter self))
  /\ _request_id_counter (model_after (predict self req))
     = S (_request_id_counter self).
Proof.
  rewrite predict_eq. cbn zeta. unfold request_id.
  destruct (negb _ && _); cbn [request_after model_after].
  - rewrite staged_request_id. split; reflexivity.
  - destruct (templated self req !! "prompt") as [p|];
      cbn [request_after model_after].
    + destruct (rejects _); cbn [request_after model_after];
        unfold Solar.submitted; rewrite lookup_insert_ne by congruence;
        rewrite templated_other by congruence;
        rewrite staged_request_id; split; reflexivity.
    + rewrite templated_other by congruence.
      rewrite staged_request_id. split; reflexivity.
Qed.

Lemma serve_length self reqs :
  List.length (serve self reqs) = List.length reqs.
Proof.
  revert self. induction reqs as [|r reqs IH]; intros self; simpl;
    [reflexivity|].
  now rewrite IH.
Qed.

Lemma serve_request_id self reqs i o :
  serve self reqs !! i = Some o ->
  request_id o
  = Some (str_nat getpid ++ str_nat (_request_id_counter self + i)).
Proof.
  revert self i. induction reqs as [|r reqs IH]; intros self i; simpl.
  - intros H. discriminate H.
  - destruct (predict_request_id self r) as [Hid Hc].
    destruct i as [|i]; simpl.
    + intros [= <-]. rewrite Nat.add_0_r. exact Hid.
    + intros H. apply IH in H. rewrite Hc in H.
      rewrite H. do 3 f_equal. lia.
Qed.

(** C9: over any sequence of calls on one model, the call at position [i]
    gets the process id followed by the counter value [i] steps on; two
    calls never get the same id, and the ids read as integers increase
    strictly with the order of the calls. *)
Theorem request_ids_fresh_and_increasing self reqs :
  List.length (serve self reqs) = List.length reqs
  /\ (forall i o, serve self reqs !! i = Some o ->
        request_id o
        = Some (str_nat getpid ++ str_nat (_request_id_counter self + i)))
  /\ (forall i j oi oj,
        i < j -> serve self reqs !! i = Some oi ->
        serve self reqs !! j = Some oj ->
        request_id oi <> request_id oj
        /\ exists ni nj,
             request_number oi = Some ni /\ request_number oj = Some nj
             /\ ni < nj).
Proof.
  split; [apply serve_length|]. split; [apply serve_request_id|].
  intros i j oi oj Hij Hi Hj.
  apply serve_request_id in Hi, Hj.
  assert (exists ni nj,
             request_number oi = Some ni /\ request_number oj = Some nj
             /\ ni < nj) as Hnum.
  { unfold request_number. rewrite Hi, Hj, !request_number_app.
    do 2 eexists. split; [reflexivity|]. split; [reflexivity|].
    apply request_number_lt. lia. }
  split; [|exact Hnum].
  destruct Hnum as (ni & nj & Hni & Hnj & Hlt).
  intros Heq. unfold request_number in Hni, Hnj. rewrite Heq in Hni.
  rewrite Hni in Hnj. injection Hnj as ->. lia.
Qed.

End RemotePredict.

(** ** The remote front door on concrete requests *)

Section RemoteExamples.
Import Solar.

(** The defect behind C1 at work: a raw prompt with [stream] false is
    submitted to the engine, and then [str.join] raises on either backend. *)
Example predict_join_raises :
  let req := <["prompt" := VStr "What is 2+2?"]> (<["stream" := VBool false]> ∅) in
  returned (example_predict (init true (VInt 2)) req)
    = Raise (TypeError "can only join an iterable")
  /\ returned (example_predict (init false (VInt 2)) req)
     = Raise (TypeError "can only join an iterable").
Proof. split; vm_compute; reflexivity. Qed.

(** With [stream] true the same request returns the async generator, whose
    increments are those of [generate]. *)
Example predict_streams :
  let req := <["prompt" := VStr "What is 2+2?"]> (<["stream" := VBool true]> ∅) in
  returned (example_predict (init false (VInt 2)) req)
  = Ok (Stream (AsyncGenerator ["4"; " is"; " the"; " answer"; ""])).
Proof. vm_compute. reflexivity. Qed.

Lemma predict_without_stream_raises_witness :
  let req := <["prompt" := VStr "What is 2+2?"]> (<["stream" := VBool false]> ∅) in
  returned (example_predict (init true (VInt 2)) req)
    = Raise (ValueError "Prompt or messages must be provided")
  \/ returned (example_predict (init true (VInt 2)) req)
     = Raise (KeyError "prompt")
  \/ returned (example_predict (init true (VInt 2)) req)
     = Raise (TypeError "can only join an iterable")
  \/ exists msg,
       schema_rejects (request_after (example_predict (init true (VInt 2)) req))
       = Some msg
       /\ returned (example_predict (init true (VInt 2)) req)
          = Raise (TypeError msg).
Proof.
  cbn zeta.
  apply (predict_without_stream_raises 7 chatml_template format_scalar
           scenario_engine true schema_rejects).
  vm_compute. reflexivity.
Defined.

Lemma invalid_request_fails_fast_witness :
  (returned (example_predict (init true (VInt 2)) ∅)
     = Raise (ValueError "Prompt or messages must be provided")
   /\ triton_client (model_after (example_predict (init true (VInt 2)) ∅)) = [])
  /\ forall msg,
       returned (example_predict (init true (VInt 2))
                   (<["prompt" := VStr "What is 2+2?"]> ∅))
       <> Raise (ValueError msg).
Proof.
  split.
  - apply (proj1 (invalid_request_fails_fast 7 chatml_template format_scalar
                    scenario_engine true schema_rejects (init true (VInt 2)) ∅));
      left; reflexivity.
  - apply (proj2 (invalid_request_fails_fast 7 chatml_template format_scalar
                    scenario_engine true schema_rejects (init true (VInt 2))
                    (<["prompt" := VStr "What is 2+2?"]> ∅))).
    left. exists "What is 2+2?". split; [reflexivity | discriminate].
Defined.

Lemma prompt_ends_with_marker_witness :
  handed_over schema_rejects (init true (VInt 2))
    (example_predict (init true (VInt 2))
       (<["messages" := VMessages [Message "user" "What is 2+2?"]]> ∅))
    "<|im_start|>user What is 2+2?<|im_end|><|im_start|>assistant"
  /\ handed_over schema_rejects (init false (VInt 2))
       (example_predict (init false (VInt 2))
          (<["prompt" := VStr "What is 2+2?"]> ∅))
       "What is 2+2?<|im_start|>assistant".
Proof.
  split.
  - apply (proj1 (prompt_ends_with_marker 7 chatml_template format_scalar
                    scenario_engine true schema_rejects (init true (VInt 2))
                    (<["messages" := VMessages [Message "user" "What is 2+2?"]]> ∅))
             [Message "user" "What is 2+2?"]).
    + reflexivity.
    + split; [reflexivity | discriminate].
    + left. reflexivity.
  - apply (proj2 (prompt_ends_with_marker 7 chatml_template format_scalar
                    scenario_engine true schema_rejects (init false (VInt 2))
                    (<["prompt" := VStr "What is 2+2?"]> ∅))
             "What is 2+2?").
    split; [reflexivity | discriminate].
Defined.

(** The request of the witness above does reach the engine, with the prompt
    it prepared. *)
Example chat_request_is_submitted :
  exists mi,
    triton_client
      (model_after
         (example_predict (init true (VInt 2))
            (<["messages" := VMessages [Message "user" "What is 2+2?"]]> ∅)))
    = [StartGrpcStream; Infer mi]
    /\ kwargs mi !! "prompt"
       = Some (VStr "<|im_start|>user What is 2+2?<|im_end|><|im_start|>assistant").
Proof. eexists. split; vm_compute; reflexivity. Qed.

(** A request with a key that the constructor does not declare: the stream
    is started, the constructor raises, and no inference is submitted. *)
Example undeclared_key_is_rejected :
  let o :=
    example_predict (init false (VInt 2))
      (<["prompt" := VStr "hi"]> (<["context" := VStr "c"]> ∅)) in
  returned o
    = Raise (TypeError "ModelInput.__init__() got an unexpected keyword argument")
  /\ triton_client (model_after o) = [StartGrpcStream]
  /\ request_after o !! "prompt" = Some (VStr "hi<|im_start|>assistant").
Proof. cbn zeta. repeat split; vm_compute; reflexivity. Qed.

Lemma request_ids_fresh_and_increasing_witness :
  let outs :=
    serve 7 chatml_template format_scalar scenario_engine true schema_rejects
      (MkModel 9 true (VInt 2) []) [∅; ∅] in
  exists oi oj,
    outs !! 0 = Some oi /\ outs !! 1 = Some oj
    /\ request_id oi = Some "79" /\ request_id oj = Some "710"
    /\ request_id oi <> request_id oj
    /\ exists ni nj,
         request_number oi = Some ni /\ request_number oj = Some nj /\ ni < nj.
Proof.
  cbn zeta. do 2 eexists.
  split; [reflexivity|]. split; [reflexivity|].
  split; [vm_compute; reflexivity|]. split; [vm_compute; reflexivity|].
  apply (proj2 (proj2 (request_ids_fresh_and_increasing 7 chatml_template
                         format_scalar scenario_engine true schema_rejects
                         (MkModel 9 true (VInt 2) []) [∅; ∅])) 0 1);
    [lia | reflexivity | reflexivity].
Defined.

(** C10, as stated, fails for an empty prompt: the key is there, so the
    marker is appended to the empty string and the request is served. *)
Lemma empty_prompt_is_no_key_error :
  let self := init false (VInt 2) in
  let req :=
    <["messages" := VMessages [Message "user" "What is 2+2?"]]>
      (<["prompt" := VStr ""]> (<["stream" := VBool true]> ∅)) in
  uses_openai_api self = false
  /\ has_messages req [Message "user" "What is 2+2?"]
  /\ req !! "prompt" = Some (VStr "")
  /\ returned (example_predict self req)
     = Ok (Stream (AsyncGenerator ["4"; " is"; " the"; " answer"; ""]))
  /\ returned (example_predict self req) <> Raise (KeyError "prompt").
Proof.
  cbn zeta. split; [reflexivity|].
  split; [split; [reflexivity | discriminate]|].
  split; [reflexivity|].
  split; [vm_compute; reflexivity | vm_compute; discriminate].
Qed.

Lemma missing_prompt_key_witness :
  let req := <["messages" := VMessages [Message "user" "What is 2+2?"]]> ∅ in
  returned (example_predict (init false (VInt 2)) req) = Raise (KeyError "prompt")
  /\ triton_client (model_after (example_predict (init false (VInt 2)) req)) = [].
Proof.
  cbn zeta.
  refine (proj1 (missing_prompt_key 7 chatml_template format_scalar
                   scenario_engine true schema_rejects (init false (VInt 2))
                   (<["messages" := VMessages [Message "user" "What is 2+2?"]]> ∅)
                   [Message "user" "What is 2+2?"] eq_refl _) _).
  - split; [reflexivity | discriminate].
  - reflexivity.
Defined.

End RemoteExamples.

(** ** The prompt formatter *)

Section PromptFormatter.
Import Llama.

(** A pattern without the character [c] starts before [c] or not at all. *)
Lemma prefix_before_char (c : ascii) (p a b : string) :
  has_char c p = false ->
  String.prefix p (a ++ String c b) = String.prefix p a.
Proof.
  revert a. induction p as [|x p IH]; intros a Hc.
  - destruct a; reflexivity.
  - simpl in Hc. apply orb_false_elim in Hc as [Hx Hp].
    destruct a as [|y a]; simpl.
    + destruct (ascii_dec x c) as [->|Hne]; [|reflexivity].
      rewrite Ascii.eqb_refl in Hx. discriminate Hx.
    + destruct (ascii_dec x y); [|reflexivity]. now apply IH.
Qed.

Lemma occurrences_split (c : ascii) (p a b : string) :
  p <> "" -> has_char c p = false ->
  occurrences p (a ++ String c b) = occurrences p a + occurrences p b.
Proof.
  intros Hne Hc. induction a as [|y a IH].
  - change ("" ++ String c b) with (String c b).
    cbn [occurrences].
    change (String c b) with ("" ++ String c b).
    rewrite prefix_before_char by assumption.
    destruct p; [congruence | reflexivity].
  - change (String y a ++ String c b) with (String y (a ++ String c b)).
    cbn [occurrences]. rewrite IH.
    change (String y (a ++ String c b)) with (String y a ++ String c b).
    rewrite prefix_before_char by assumption. lia.
Qed.

(** No occurrence starts in a string that lacks the pattern's first
    character. *)
Lemma occurrences_skip (x : ascii) (p a b : string) :
  has_char x a = false ->
  occurrences (String x p) (a ++ b) = occurrences (String x p) b.
Proof.
  induction a as [|y a IH]; intros Ha; [reflexivity|].
  simpl in Ha. apply orb_false_elim in Ha as [Hy Ha].
  change (String y a ++ b) with (String y (a ++ b)).
  cbn [occurrences]. rewrite (IH Ha). cbn [String.prefix].
  destruct (ascii_dec x y) as [->|_]; [|reflexivity].
  rewrite Ascii.eqb_refl in Hy. discriminate Hy.
Qed.

Lemma prefix_self (p s : string) : String.prefix p (p ++ s) = true.
Proof.
  induction p as [|x p IH]; simpl; [now destruct s|].
  destruct (ascii_dec x x) as [_|Hxx]; [exact IH | now destruct Hxx].
Qed.

Lemma occurrences_blank_line (p a b : string) :
  p <> "" -> has_char LF p = false ->
  occurrences p (a ++ LFLF ++ b) = occurrences p a + occurrences p b.
Proof.
  intros Hne Hc. unfold LFLF.
  change (String LF (String LF "") ++ b) with (String LF ("" ++ String LF b)).
  rewrite !occurrences_split by assumption. simpl. lia.
Qed.

Lemma occurrences_join (p : string) (l : list string) :
  p <> "" -> has_char LF p = false ->
  occurrences p (join LFLF l) = total (map (occurrences p) l).
Proof.
  intros Hne Hc. induction l as [|s l IH]; [reflexivity|].
  destruct l as [|s' l].
  - simpl. lia.
  - change (join LFLF (s :: s' :: l)) with (s ++ LFLF ++ join LFLF (s' :: l)).
    rewrite occurrences_blank_line by assumption. rewrite IH. reflexivity.
Qed.

(** What the counting uses of the instruction: it has no line feed, and its
    only capital P is its first character. *)
Lemma instruction_facts :
  INSTRUCTION <> "" /\ has_char LF INSTRUCTION = false
  /\ exists rest, INSTRUCTION = String "P" rest /\ has_char "P" rest = false.
Proof.
  split; [discriminate|]. split; [reflexivity|].
  eexists. split; reflexivity.
Qed.

Lemma occurrences_render (item : message) :
  occurrences INSTRUCTION (render item)
  = occurrences INSTRUCTION (content item).
Proof.
  destruct instruction_facts as (_ & _ & rest & -> & _).
  unfold render. destruct (decide (role item = "user"));
    apply occurrences_skip; reflexivity.
Qed.

Lemma occurrences_instructed (c : string) :
  occurrences INSTRUCTION (INSTRUCTION ++ " " ++ c)
  = 1 + occurrences INSTRUCTION c.
Proof.
  pose proof (prefix_self INSTRUCTION (" " ++ c)) as Hp.
  destruct instruction_facts as (_ & _ & rest & E & Hrest).
  rewrite E in *.
  change (String "P" rest ++ " " ++ c)
    with (String "P" (rest ++ " " ++ c)) in *.
  cbn [occurrences]. rewrite Hp.
  rewrite occurrences_skip by exact Hrest.
  rewrite occurrences_skip by reflexivity. reflexivity.
Qed.

Lemma total_render (messages : list message) :
  total (map (fun m => occurrences INSTRUCTION (render m)) messages)
  = total (map (fun m => occurrences INSTRUCTION (content m)) messages).
Proof.
  induction messages as [|m rest IH]; [reflexivity|].
  cbn [map total fold_right]. rewrite occurrences_render.
  unfold total in IH. now rewrite IH.
Qed.

Lemma total_instructed (messages : list message) :
  total (map (fun m => occurrences INSTRUCTION (render m))
           (instruct_first_user messages))
  = (if existsb is_user messages then 1 else 0)
    + total (map (fun m => occurrences INSTRUCTION (content m)) messages).
Proof.
  induction messages as [|item rest IH]; [reflexivity|].
  cbn [instruct_first_user existsb]. unfold is_user at 1.
  destruct (decide (role item = "user")) as [Hu|Hu].
  - rewrite bool_decide_eq_true_2 by assumption. cbn [orb map total fold_right].
    rewrite occurrences_render. cbn [content].
    rewrite occurrences_instructed.
    fold (total (map (fun m => occurrences INSTRUCTION (render m)) rest)).
    rewrite total_render.
    fold (total (map (fun m => occurrences INSTRUCTION (content m)) rest)).
    lia.
  - rewrite bool_decide_eq_false_2 by assumption.
    cbn [orb map total fold_right].
    fold (total (map (fun m => occurrences INSTRUCTION (render m))
                   (instruct_first_user rest))).
    rewrite IH, occurrences_render.
    fold (total (map (fun m => occurrences INSTRUCTION (content m)) rest)).
    lia.
Qed.

(** The instruction starts in the formatted input once for the user turn it
    was given to, and wherever it already started in the context or in the
    content of a turn. *)
Lemma instruction_count (messages : list message) (context : string) :
  occurrences INSTRUCTION (snd (get_formatted_input messages context))
  = (if existsb is_user messages then 1 else 0)
    + occurrences INSTRUCTION context
    + total (map (fun m => occurrences INSTRUCTION (content m)) messages).
Proof.
  destruct instruction_facts as (Hne & Hlf & _).
  unfold get_formatted_input. cbn [snd].
  rewrite !occurrences_blank_line by assumption.
  rewrite occurrences_join by assumption.
  rewrite map_map. rewrite total_instructed.
  assert (occurrences INSTRUCTION SYSTEM = 0) as -> by (vm_compute; reflexivity).
  assert (occurrences INSTRUCTION "Assistant:" = 0) as ->
    by (vm_compute; reflexivity).
  lia.
Qed.

Lemma instruct_first_user_spec (messages : list message) :
  (existsb is_user messages = true ->
   exists pre item post,
     messages = (pre ++ item :: post)%list
     /\ Forall (fun m => role m <> "user") pre
     /\ role item = "user"
     /\ instruct_first_user messages
        = (pre ++ {| role := role item;
                     content := INSTRUCTION ++ " " ++ content item |}
               :: post)%list)
  /\ (existsb is_user messages = false ->
      instruct_first_user messages = messages).
Proof.
  induction messages as [|item rest [IHt IHf]];
    (split; [intros H; discriminate H || idtac | try reflexivity]).
  - cbn [existsb instruct_first_user] in *. unfold is_user at 1 in H.
    destruct (decide (role item = "user")) as [Hu|Hu].
    + exists [], item, rest. repeat split; [constructor | assumption].
    + rewrite bool_decide_eq_false_2 in H by assumption.
      destruct (IHt H) as (pre & m & post & -> & Hpre & Hm & E).
      exists (item :: pre), m, post. rewrite E.
      repeat split; [constructor; assumption | assumption].
  - cbn [existsb instruct_first_user]. unfold is_user at 1. intros H.
    destruct (decide (role item = "user")) as [Hu|Hu].
    + rewrite bool_decide_eq_true_2 in H by assumption. discriminate H.
    + rewrite bool_decide_eq_false_2 in H by assumption.
      now rewrite (IHf H).
Qed.

Lemma has_user_turn (messages : list message) :
  (exists m, In m messages /\ role m = "user") ->
  existsb is_user messages = true.
Proof.
  intros (m & Hin & Hu). apply existsb_exists. exists m. split; [assumption|].
  unfold is_user. now apply bool_decide_eq_true_2.
Qed.

Lemma total_zero (messages : list message) :
  Forall (fun m => occurrences INSTRUCTION (content m) = 0) messages ->
  total (map (fun m => occurrences INSTRUCTION (content m)) messages) = 0.
Proof.
  induction 1 as [|m rest Hm _ IH]; [reflexivity|].
  cbn [map total fold_right]. unfold total in IH. lia.
Qed.

(** C6, as the code has it: when some turn has the role user, one call puts
    the instruction and a space in front of the content of the first such
    turn and leaves every other turn as it was; and when neither the content
    of a turn nor the context contained the instruction, it starts at
    exactly one position of the formatted input. *)
Theorem instruction_on_first_user_turn (messages : list message)
  (context : string) :
  (exists m, In m messages /\ role m = "user") ->
  exists pre item post,
    messages = (pre ++ item :: post)%list
    /\ Forall (fun m => role m <> "user") pre
    /\ role item = "user"
    /\ fst (get_formatted_input messages context)
       = (pre ++ {| role := role item;
                    content := INSTRUCTION ++ " " ++ content item |}
              :: post)%list
    /\ (Forall (fun m => occurrences INSTRUCTION (content m) = 0) messages ->
        occurrences INSTRUCTION context = 0 ->
        occurrences INSTRUCTION (snd (get_formatted_input messages context))
        = 1).
Proof.
  intros Hu. apply has_user_turn in Hu.
  destruct (proj1 (instruct_first_user_spec messages) Hu)
    as (pre & item & post & E & Hpre & Hitem & Hi).
  exists pre, item, post. repeat split; try assumption.
  intros Hm Hc. rewrite instruction_count, Hu, Hc, (total_zero _ Hm).
  reflexivity.
Qed.

Lemma instruction_on_first_user_turn_witness :
  let messages :=
    [Message "assistant" "Hello."; Message "user" "What is 2+2?";
     Message "user" "And 3+3?"] in
  occurrences INSTRUCTION (snd (get_formatted_input messages "")) = 1.
Proof.
  cbn zeta.
  destruct (instruction_on_first_user_turn
              [Message "assistant" "Hello."; Message "user" "What is 2+2?";
               Message "user" "And 3+3?"] "")
    as (pre & item & post & _ & _ & _ & _ & Hcount).
  - exists (Message "user" "What is 2+2?"). split; [right; left|]; reflexivity.
  - apply Hcount; [repeat constructor | reflexivity].
Defined.

(** C6, as stated, fails when the context carries the instruction: the turns
    did not contain it, and the formatted input has it twice. *)
Lemma instruction_twice_with_context :
  let messages := [Message "user" "What is 2+2?"] in
  Forall (fun m => occurrences INSTRUCTION (content m) = 0) messages
  /\ occurrences INSTRUCTION (snd (get_formatted_input messages INSTRUCTION))
     = 2.
Proof.
  cbn zeta. split; [repeat constructor|]. vm_compute. reflexivity.
Qed.

(** The first end-to-end scenario. *)
Example formatted_question :
  snd (get_formatted_input [Message "user" "What is 2+2?"] "")
  = SYSTEM ++ LFLF ++ LFLF
    ++ "User: Please give a full and complete answer for the question. What is 2+2?"
    ++ LFLF ++ "Assistant:".
Proof. vm_compute. reflexivity. Qed.

End PromptFormatter.

(** ** The generation parameters *)

Section GenerationConfig.
Import Llama.

Lemma generate_args_fields (tok : Tokenizer) (request : gmap string pyval) :
  Forall (override_or_default request (generate_args tok request))
    sampling_fields.
Proof.
  unfold sampling_fields, generate_args, get_default.
  repeat constructor; intros; simplify_map_eq; reflexivity.
Qed.

(** C7: for a request with messages and a context, [preprocess] returns, and
    the parameters it builds hold, for each of the seven sampling fields,
    the request's value when the request has the field and the default
    (512, 1.0, 0.95, 40, 1.0, 0, true) when it has not; [use_cache] is true
    and the termination ids are the tokenizer's end-of-sequence id and the
    id of the end-of-turn token. *)
Theorem preprocess_builds_parameters (tok : Tokenizer)
  (request : gmap string pyval) (messages : list message) (context : string) :
  request !! "messages" = Some (VMessages messages) ->
  request !! "context" = Some (VStr context) ->
  exists request' args,
    preprocess tok request = Ok request'
    /\ request' !! "generate_args" = Some (VDict args)
    /\ Forall (override_or_default request args) sampling_fields
    /\ args !! "use_cache" = Some (VBool true)
    /\ args !! "eos_token_id"
       = Some (VIntList [eos_token_id tok; eot_id tok]).
Proof.
  intros Hm Hc. unfold preprocess, pop. rewrite Hm. cbn [bind].
  rewrite lookup_delete_ne by congruence. rewrite Hc.
  cbn [bind as_messages as_str].
  do 2 eexists. split; [reflexivity|]. split; [apply lookup_insert_eq|].
  split; [apply generate_args_fields|].
  unfold generate_args. split; simplify_map_eq; reflexivity.
Qed.

Lemma preprocess_builds_parameters_witness :
  exists request' args,
    preprocess char_tokenizer (<["max_tokens" := VInt 10]> question)
    = Ok request'
    /\ request' !! "generate_args" = Some (VDict args)
    /\ Forall (override_or_default (<["max_tokens" := VInt 10]> question) args)
         sampling_fields
    /\ args !! "use_cache" = Some (VBool true)
    /\ args !! "eos_token_id" = Some (VIntList [0%Z; 1%Z]).
Proof.
  apply (preprocess_builds_parameters char_tokenizer
           (<["max_tokens" := VInt 10]> question)
           [Message "user" "What is 2+2?"] ""); reflexivity.
Defined.

(** A request that sets [max_tokens] and [temperature] and nothing else. *)
Example generate_args_overrides :
  let request :=
    <["max_tokens" := VInt 10]> (<["temperature" := VFloat (7 # 10)]> question) in
  generate_args char_tokenizer request !! "max_length" = Some (VInt 10)
  /\ generate_args char_tokenizer request !! "temperature"
     = Some (VFloat (7 # 10))
  /\ generate_args char_tokenizer request !! "top_p" = Some (VFloat (95 # 100))
  /\ generate_args char_tokenizer request !! "top_k" = Some (VInt 40).
Proof. cbn zeta. repeat split; vm_compute; reflexivity. Qed.

End GenerationConfig.

(** ** The two local paths *)

Section LocalPaths.
Import Llama.

Variable next_token : gmap string pyval -> list Z -> Z.
Variable tok : Tokenizer.

(** The streaming path gives the model [max_length] tokens after the prompt. *)
Lemma stream_budget ids args L :
  args !! "max_length" = Some L ->
  stream next_token tok ids args
  = Ok (Iterable (streamer tok (generate_loop next_token (as_nat L) args ids))).
Proof. intros H. unfold stream, getitem. rewrite H. reflexivity. Qed.

(** The non-streaming path gives it what [max_length] leaves after the
    prompt. *)
Lemma batch_budget ids args L :
  args !! "max_length" = Some L ->
  model_generate next_token ids args None
  = generate_loop next_token (as_nat L - List.length ids) args ids.
Proof.
  intros H. unfold model_generate, new_token_budget, get. rewrite H.
  reflexivity.
Qed.

End LocalPaths.

Section LocalExamples.
Import Llama.

(** C4, on the code: the two paths do not generate under one budget. For
    the request of the first scenario with the default parameters, whose
    formatted input has 357 tokens, and a model that produces no termination
    id, the streamed text has the prompt and 512 more tokens, the
    non-streaming text has 512 tokens in all. No token involved is special,
    so stripping special tokens changes neither text. *)
Theorem stream_and_batch_budgets_differ :
  option_map String.length
    (text_of (handle babbler char_tokenizer
                (<["stream" := VBool true]> question)))
  = Some (357 + 512)
  /\ option_map String.length
       (text_of (handle babbler char_tokenizer
                   (<["stream" := VBool false]> question)))
     = Some 512
  /\ text_of (handle babbler char_tokenizer
                (<["stream" := VBool true]> question))
     <> text_of (handle babbler char_tokenizer
                   (<["stream" := VBool false]> question)).
Proof.
  assert (option_map String.length
            (text_of (handle babbler char_tokenizer
                        (<["stream" := VBool true]> question)))
          = Some (357 + 512)) as Hs by (vm_compute; reflexivity).
  assert (option_map String.length
            (text_of (handle babbler char_tokenizer
                        (<["stream" := VBool false]> question)))
          = Some 512) as Hb by (vm_compute; reflexivity).
  split; [exact Hs|]. split; [exact Hb|].
  intros E. rewrite E in Hs. rewrite Hs in Hb. discriminate Hb.
Qed.

End LocalExamples.

(** * Further properties of the two models *)

(** ** The remote request *)

Section RemoteRequest.
Import Solar.

Variable getpid : nat.
Variable apply_chat_template : pyval -> string.
Variable format_value : pyval -> string.
Variable engine : ModelInput -> list string.
Variable stream_default : bool.
Variable rejects : gmap string pyval -> option string.

Local Abbreviation predict :=
  (Solar.predict getpid apply_chat_template format_value engine stream_default
     rejects).
Local Abbreviation staged := (Solar.staged getpid).
Local Abbreviation templated := (Solar.templated getpid apply_chat_template).
Local Abbreviation submitted :=
  (Solar.submitted getpid apply_chat_template format_value).

(** Lookups of a key other than ["prompt"] in the request a call leaves
    behind are lookups in the staged request. *)
Lemma request_after_other self req k :
  k <> "prompt" ->
  request_after (predict self req) !! k = staged self req !! k.
Proof.
  intros Hk. rewrite predict_eq. cbn zeta.
  destruct (negb _ && _); cbn [request_after]; [reflexivity|].
  destruct (templated self req !! "prompt") as [p|]; cbn [request_after].
  - destruct (rejects _); cbn [request_after];
      unfold Solar.submitted; rewrite lookup_insert_ne by congruence;
      now apply templated_other.
  - now apply templated_other.
Qed.

(** X1: after any call, the request holds under ["max_tokens"] and
    ["max_new_tokens"] its own value, or 500 where the key was absent or
    held [None]. *)
Theorem token_budgets_default_to_500 self req :
  request_after (predict self req) !! "max_tokens"
    = Some (budget_or_500 (req !! "max_tokens"))
  /\ request_after (predict self req) !! "max_new_tokens"
     = Some (budget_or_500 (req !! "max_new_tokens")).
Proof.
  rewrite !request_after_other by congruence.
  unfold Solar.staged, default_budget, get, budget_or_500.
  split.
  - destruct (req !! "max_tokens") as [[]|] eqn:E; cbn [default is_None];
      repeat (case_match; simplify_map_eq); try reflexivity.
  - destruct (req !! "max_new_tokens") as [[]|] eqn:E; cbn [default is_None];
      repeat (case_match; simplify_map_eq); try reflexivity.
Qed.

(** X2: after any call the request has no ["messages"] key, its
    ["eos_token_id"] is the model's (whatever the caller sent), and every
    key that [predict] does not write is as the caller sent it. *)
Theorem request_fields_after_call self req :
  request_after (predict self req) !! "messages" = None
  /\ request_after (predict self req) !! "eos_token_id"
     = Some (eos_token_id self)
  /\ forall k, ~ In k written_keys ->
       request_after (predict self req) !! k = req !! k.
Proof.
  split; [|split].
  - rewrite request_after_other by congruence.
    unfold Solar.staged. apply lookup_delete_eq.
  - rewrite request_after_other by congruence.
    unfold Solar.staged. rewrite lookup_delete_ne by congruence.
    apply lookup_insert_eq.
  - intros k Hk.
    assert (forall x, In x written_keys -> x <> k) as Hne
      by (intros x Hx ->; exact (Hk Hx)).
    assert (forall x, In x written_keys -> k <> x) as Hne'
      by (intros x Hx ->; exact (Hk Hx)).
    rewrite request_after_other by (apply Hne'; cbn; tauto).
    unfold Solar.staged, default_budget.
    rewrite lookup_delete_ne by (apply Hne; cbn; tauto).
    rewrite !lookup_insert_ne by (apply Hne; cbn; tauto).
    repeat case_match;
      rewrite ?lookup_insert_ne by (apply Hne; cbn; tauto); reflexivity.
Qed.

(** X3: a call leaves the model's backend flag and end-of-sequence id
    alone and moves the counter on by one, also when it raises. What the
    Triton client sees is one of three things: no call, with the
    [ValueError] or the [KeyError] raised; the stream start alone, with the
    [TypeError] of a request the constructor of [ModelInput] does not take;
    or the stream start followed by one inference whose input holds the
    request as the call left it. *)
Theorem predict_frame self req :
  uses_openai_api (model_after (predict self req)) = uses_openai_api self
  /\ eos_token_id (model_after (predict self req)) = eos_token_id self
  /\ _request_id_counter (model_after (predict self req))
     = S (_request_id_counter self)
  /\ ((triton_client (model_after (predict self req)) = triton_client self
       /\ (returned (predict self req)
             = Raise (ValueError "Prompt or messages must be provided")
           \/ returned (predict self req) = Raise (KeyError "prompt")))
      \/ (triton_client (model_after (predict self req))
            = (triton_client self ++ [StartGrpcStream])%list
          /\ exists msg,
               rejects (request_after (predict self req)) = Some msg
               /\ returned (predict self req) = Raise (TypeError msg))
      \/ (rejects (request_after (predict self req)) = None
          /\ exists mi,
               triton_client (model_after (predict self req))
                 = (triton_client self ++ [StartGrpcStream; Infer mi])%list
               /\ kwargs mi = request_after (predict self req)
               /\ (returned (predict self req)
                     = Ok (Stream (AsyncGenerator (generate (engine mi))))
                   \/ returned (predict self req)
                      = Raise (TypeError "can only join an iterable")))).
Proof.
  rewrite predict_eq. cbn zeta.
  destruct (negb _ && _).
  - cbn. repeat split. left. split; [reflexivity | left; reflexivity].
  - destruct (templated self req !! "prompt") as [p|].
    + destruct (rejects (Solar.submitted getpid apply_chat_template
                           format_value self req p)) as [msg|] eqn:Hr;
        cbn [model_after request_after returned].
      * repeat split. right. left. split; [reflexivity|].
        exists msg. split; [exact Hr | reflexivity].
      * repeat split. right. right. split; [exact Hr|].
        eexists. split; [apply calls_after_submit|].
        split; [reflexivity|].
        destruct (stream_flag _ _); [left | right]; reflexivity.
    + cbn. repeat split. left. split; [reflexivity | right; reflexivity].
Qed.

(** X4: a request whose stream flag is true, with a non-empty prompt or,
    on a chat-compatible backend, non-empty messages, and which the
    constructor of [ModelInput] takes as it was prepared, is submitted and
    gets the async generator over the engine's responses to what was
    submitted. *)
Theorem streaming_request_returns_generator self req :
  truthy (get_default req "stream" (VBool stream_default)) = true ->
  (exists p, has_prompt req p)
  \/ (uses_openai_api self = true /\ exists msgs, has_messages req msgs) ->
  rejects (request_after (predict self req)) = None ->
  exists mi,
    returned (predict self req)
      = Ok (Stream (AsyncGenerator (generate (engine mi))))
    /\ triton_client (model_after (predict self req))
       = (triton_client self ++ [StartGrpcStream; Infer mi])%list
    /\ kwargs mi = request_after (predict self req).
Proof.
  intros Hs Hgiven.
  assert (negb (truthy (get_default req "prompt" VNone))
          && eq_empty_list (get_default req "messages" (VMessages [])) = false)
    as Hc.
  { destruct Hgiven as [[p Hp] | [_ [msgs Hm]]].
    - now rewrite (has_prompt_truthy _ _ Hp).
    - rewrite (has_messages_nonempty _ _ Hm). apply andb_false_r. }
  assert (exists p, templated self req !! "prompt" = Some p) as [p Hp].
  { rewrite templated_prompt.
    destruct Hgiven as [[p [Hp _]] | [Ho _]].
    - rewrite Hp. destruct (uses_openai_api self && _); eexists; reflexivity.
    - rewrite Ho. cbn [andb].
      destruct (truthy (get_default req "prompt" VNone)) eqn:Ht; cbn [negb];
        [|eexists; reflexivity].
      unfold get_default in Ht.
      destruct (req !! "prompt"); [eexists; reflexivity|].
      discriminate Ht. }
  destruct (predict_prepared getpid apply_chat_template format_value engine
              stream_default rejects self req Hc p Hp) as [Hreq Hrest].
  rewrite Hreq. intros Hr. rewrite Hr in Hrest.
  destruct Hrest as [Hret Hmodel]. rewrite Hret, Hmodel, Hs.
  eexists. split; [reflexivity|].
  split; [apply calls_after_submit | reflexivity].
Qed.

End RemoteRequest.

Section StreamText.
Import Solar.

Lemma append_empty_r (s : string) : s ++ "" = s.
Proof.
  induction s as [|c s IH]; [reflexivity|].
  change (String c (s ++ "") = String c s). now rewrite IH.
Qed.

Lemma join_empty_cons (s : string) (l : list string) :
  join "" (s :: l) = s ++ join "" l.
Proof.
  destruct l as [|s' l]; [now rewrite append_empty_r | reflexivity].
Qed.

(** X5: the increments put together are the engine's responses put
    together with the stop tokens left out. *)
Theorem streamed_text_drops_stop_tokens (rs : list string) :
  join "" (generate rs) = join "" (filter (fun r => r <> STOP_TOKEN) rs).
Proof.
  induction rs as [|r rs IH]; [reflexivity|].
  cbn [generate]. rewrite filter_cons.
  destruct (decide (r <> STOP_TOKEN)).
  - rewrite !join_empty_cons. now rewrite IH.
  - rewrite join_empty_cons. exact IH.
Qed.

End StreamText.

Section RemoteLoad.
Import Solar.

Variable HF_AUTH_KEY_CONSTANT : string.
Variable TOKENIZER_KEY_CONSTANT : string.
Variable tokenizer_eos : string -> option string -> pyval.

Variable getpid : nat.
Variable apply_chat_template : pyval -> string.
Variable format_value : pyval -> string.
Variable engine : ModelInput -> list string.
Variable stream_default : bool.
Variable rejects : gmap string pyval -> option string.

Local Abbreviation predict :=
  (Solar.predict getpid apply_chat_template format_value engine stream_default
     rejects).
Local Abbreviation load :=
  (Solar.load HF_AUTH_KEY_CONSTANT TOKENIZER_KEY_CONSTANT tokenizer_eos).

(** X6: [load] runs [ldconfig], builds the engine exactly when the
    configuration requires it, then creates the server and the model
    repository, starts the server, creates the client and loads the
    tokenizer. The secret, when there is one, goes to the model repository
    and to the tokenizer as it is; the server's environment always names the
    tokenizer repository, carries the secret only when it is not empty, and
    has no other variable. *)
Theorem load_starts_server_with_environment self data_dir cfg tags
  (secrets : gmap string string) :
  exists pre engine_path repo world_size env,
    snd (load self data_dir cfg tags secrets)
    = (pre ++ [NewTritonServer;
               CreateModelRepository data_dir engine_path
                 (secrets !! "hf_access_token");
               StartServer world_size env;
               NewTritonClient;
               LoadTokenizer repo (secrets !! "hf_access_token")])%list
    /\ pre = (if requires_build cfg
              then [Ldconfig; BuildEngine data_dir] else [Ldconfig])
    /\ engine_path = (if requires_build cfg
                      then None
                      else Some (engine_repository (serve_section cfg)))
    /\ env !! TOKENIZER_KEY_CONSTANT = Some repo
    /\ (HF_AUTH_KEY_CONSTANT <> TOKENIZER_KEY_CONSTANT ->
        env !! HF_AUTH_KEY_CONSTANT
        = if token_truthy (secrets !! "hf_access_token")
          then secrets !! "hf_access_token" else None)
    /\ (forall k, k <> HF_AUTH_KEY_CONSTANT -> k <> TOKENIZER_KEY_CONSTANT ->
        env !! k = None)
    /\ eos_token_id (fst (load self data_dir cfg tags secrets))
       = tokenizer_eos repo (secrets !! "hf_access_token").
Proof.
  assert (forall repo,
            let env := server_env HF_AUTH_KEY_CONSTANT TOKENIZER_KEY_CONSTANT
                         (secrets !! "hf_access_token") repo in
            env !! TOKENIZER_KEY_CONSTANT = Some repo
            /\ (HF_AUTH_KEY_CONSTANT <> TOKENIZER_KEY_CONSTANT ->
                env !! HF_AUTH_KEY_CONSTANT
                = if token_truthy (secrets !! "hf_access_token")
                  then secrets !! "hf_access_token" else None)
            /\ (forall k, k <> HF_AUTH_KEY_CONSTANT ->
                  k <> TOKENIZER_KEY_CONSTANT -> env !! k = None)) as Henv.
  { intros repo env. subst env. unfold server_env.
    split; [apply lookup_insert_eq|]. split.
    - intros Hne. rewrite lookup_insert_ne by congruence.
      destruct (secrets !! "hf_access_token") as [t|]; [|reflexivity].
      destruct (token_truthy (Some t));
        [apply lookup_insert_eq | reflexivity].
    - intros k Hk1 Hk2. rewrite lookup_insert_ne by congruence.
      destruct (secrets !! "hf_access_token") as [t|]; [|reflexivity].
      destruct (token_truthy (Some t)); [|reflexivity].
      rewrite lookup_insert_ne by congruence. reflexivity. }
  unfold Solar.load.
  destruct (requires_build cfg); cbn [negb fst snd eos_token_id].
  - exists [Ldconfig; BuildEngine data_dir], None,
      (huggingface_ckpt_repository (build_section cfg)),
      (build_tensor_parallel_count (build_section cfg)
       * build_pipeline_parallel_count (build_section cfg)),
      (server_env HF_AUTH_KEY_CONSTANT TOKENIZER_KEY_CONSTANT
         (secrets !! "hf_access_token")
         (huggingface_ckpt_repository (build_section cfg))).
    destruct (Henv (huggingface_ckpt_repository (build_section cfg)))
      as (H1 & H2 & H3).
    repeat split; assumption || reflexivity.
  - exists [Ldconfig], (Some (engine_repository (serve_section cfg))),
      (serve_tokenizer_repository (serve_section cfg)),
      (serve_tensor_parallel_count (serve_section cfg)
       * serve_pipeline_parallel_count (serve_section cfg)),
      (server_env HF_AUTH_KEY_CONSTANT TOKENIZER_KEY_CONSTANT
         (secrets !! "hf_access_token")
         (serve_tokenizer_repository (serve_section cfg))).
    destruct (Henv (serve_tokenizer_repository (serve_section cfg)))
      as (H1 & H2 & H3).
    repeat split; assumption || reflexivity.
Qed.

(** X7: on a model fresh from [__init__] and [load], a request with
    messages and no prompt key gets the process id followed by 1 as its id;
    with the tag "openai-compatible" among the configured tags its prompt
    becomes the rendered messages and the marker, without the tag the call
    raises [KeyError]. *)
Theorem tag_decides_chat_mode openai eos data_dir cfg tags secrets req msgs :
  has_messages req msgs -> req !! "prompt" = None ->
  let model := fst (load (init openai eos) data_dir cfg tags secrets) in
  request_id (predict model req) = Some (str_nat getpid ++ "1")
  /\ ("openai-compatible" ∈ tags ->
      request_after (predict model req) !! "prompt"
      = Some (VStr (apply_chat_template (VMessages msgs)
                    ++ APPEND_ASSISTANT_TEMPLATE_TO_PROMPT_STR)))
  /\ ("openai-compatible" ∉ tags ->
      returned (predict model req) = Raise (KeyError "prompt")).
Proof.
  intros Hm Hp model.
  pose proof (has_messages_nonempty _ _ Hm) as He.
  assert (negb (truthy (get_default req "prompt" VNone))
          && eq_empty_list (get_default req "messages" (VMessages [])) = false)
    as Hc by (rewrite He; apply andb_false_r).
  assert (truthy (get_default req "prompt" VNone) = false) as Hf
    by (unfold get_default; now rewrite Hp).
  split; [|split].
  - destruct (predict_request_id getpid apply_chat_template format_value
                engine stream_default rejects model req) as [-> _].
    subst model. unfold Solar.load.
    destruct (requires_build cfg); reflexivity.
  - intros Htag.
    assert (uses_openai_api model = true) as Ho.
    { subst model. unfold Solar.load.
      destruct (requires_build cfg); cbn; now apply bool_decide_eq_true_2. }
    assert (Solar.templated getpid apply_chat_template model req !! "prompt"
            = Some (VStr (apply_chat_template (VMessages msgs)))) as Ht.
    { rewrite templated_prompt, Ho, Hf. cbn.
      unfold get_default. destruct Hm as [-> _]. reflexivity. }
    destruct (predict_prepared getpid apply_chat_template format_value engine
                stream_default rejects model req Hc _ Ht) as [-> _].
    unfold Solar.submitted. apply lookup_insert_eq.
  - intros Htag.
    assert (uses_openai_api model = false) as Ho.
    { subst model. unfold Solar.load.
      destruct (requires_build cfg); cbn; now apply bool_decide_eq_false_2. }
    rewrite predict_eq. cbn zeta. rewrite Hc.
    rewrite templated_prompt, Ho, Hp. reflexivity.
Qed.

End RemoteLoad.

(** ** The local model *)

Section FormatterEdges.
Import Llama.

Lemma append_assoc_string (a b c : string) : (a ++ b) ++ c = a ++ b ++ c.
Proof.
  induction a as [|x a IH]; [reflexivity|].
  change (String x ((a ++ b) ++ c) = String x (a ++ b ++ c)). now rewrite IH.
Qed.

Lemma instruct_first_user_roles (messages : list message) :
  map role (instruct_first_user messages) = map role messages.
Proof.
  induction messages as [|item rest IH]; [reflexivity|].
  cbn [instruct_first_user]. destruct (decide (role item = "user")).
  - reflexivity.
  - cbn [map]. now rewrite IH.
Qed.

(** X8: the formatter leaves the number of turns and the role of every
    turn as they were. *)
Theorem formatter_keeps_roles (messages : list message) (context : string) :
  map role (fst (get_formatted_input messages context)) = map role messages
  /\ List.length (fst (get_formatted_input messages context))
     = List.length messages.
Proof.
  cbn [get_formatted_input fst]. split; [apply instruct_first_user_roles|].
  rewrite <- (length_map role), instruct_first_user_roles. apply length_map.
Qed.

Lemma no_user_turn (messages : list message) :
  Forall (fun m => role m <> "user") messages ->
  existsb is_user messages = false.
Proof.
  induction 1 as [|m rest Hm _ IH]; [reflexivity|].
  cbn [existsb]. unfold is_user at 1.
  rewrite bool_decide_eq_false_2 by assumption. exact IH.
Qed.

(** X9: without a turn of role user the formatter changes no turn, labels
    every turn as the assistant's, and adds no occurrence of the instruction
    to the formatted input. *)
Theorem no_user_turn_no_instruction (messages : list message)
  (context : string) :
  Forall (fun m => role m <> "user") messages ->
  fst (get_formatted_input messages context) = messages
  /\ snd (get_formatted_input messages context)
     = SYSTEM ++ LFLF ++ context ++ LFLF
       ++ join LFLF (map (fun m => "Assistant: " ++ content m) messages)
       ++ LFLF ++ "Assistant:"
  /\ occurrences INSTRUCTION (snd (get_formatted_input messages context))
     = occurrences INSTRUCTION context
       + total (map (fun m => occurrences INSTRUCTION (content m)) messages).
Proof.
  intros Hno. pose proof (no_user_turn _ Hno) as Hex.
  pose proof (proj2 (instruct_first_user_spec messages) Hex) as Hid.
  split; [exact Hid|]. split.
  - unfold get_formatted_input. cbn [snd]. rewrite Hid.
    do 6 f_equal. apply map_ext_Forall.
    eapply Forall_impl; [exact Hno|]. intros m Hm. unfold render.
    destruct (decide (role m = "user")); [contradiction | reflexivity].
  - rewrite instruction_count, Hex. reflexivity.
Qed.

Lemma instruct_first_user_app (pre post : list message) (item : message) :
  Forall (fun m => role m <> "user") pre -> role item = "user" ->
  instruct_first_user (pre ++ item :: post)
  = (pre ++ {| role := role item;
               content := INSTRUCTION ++ " " ++ content item |} :: post)%list.
Proof.
  intros Hpre Hitem. induction Hpre as [|m pre Hm _ IH].
  - cbn. destruct (decide (role item = "user")); [reflexivity | contradiction].
  - cbn [app instruct_first_user].
    destruct (decide (role m = "user")); [contradiction|]. now rewrite IH.
Qed.

Lemma total_app (l1 l2 : list nat) : total (l1 ++ l2) = total l1 + total l2.
Proof. unfold total. induction l1 as [|x l1 IH]; simpl; lia. Qed.

(** X10: formatting the turns that a first call left behind puts the
    instruction in front of the first user turn a second time; if neither
    the turns nor the second context contained the instruction, the second
    formatted input has it twice. *)
Theorem formatting_twice_prefixes_twice (messages : list message)
  (context context' : string) :
  (exists m, In m messages /\ role m = "user") ->
  let once := fst (get_formatted_input messages context) in
  exists pre item post,
    messages = (pre ++ item :: post)%list
    /\ Forall (fun m => role m <> "user") pre
    /\ role item = "user"
    /\ fst (get_formatted_input once context')
       = (pre ++ {| role := role item;
                    content := INSTRUCTION ++ " " ++ INSTRUCTION ++ " "
                               ++ content item |} :: post)%list
    /\ (Forall (fun m => occurrences INSTRUCTION (content m) = 0) messages ->
        occurrences INSTRUCTION context' = 0 ->
        occurrences INSTRUCTION (snd (get_formatted_input once context')) = 2).
Proof.
  intros Hu once. apply has_user_turn in Hu.
  destruct (proj1 (instruct_first_user_spec messages) Hu)
    as (pre & item & post & E & Hpre & Hitem & Hi).
  exists pre, item, post. split; [exact E|]. split; [exact Hpre|].
  split; [exact Hitem|].
  subst once. cbn [get_formatted_input fst]. rewrite Hi. split.
  - rewrite instruct_first_user_app by assumption. reflexivity.
  - intros Hclean Hc. rewrite instruction_count, Hc.
    assert (existsb is_user
              (pre ++ {| role := role item;
                         content := INSTRUCTION ++ " " ++ content item |}
                   :: post) = true) as ->.
    { apply existsb_exists. eexists. split; [apply in_elt|].
      unfold is_user. now apply bool_decide_eq_true_2. }
    rewrite map_app, total_app. cbn [map total fold_right content].
    rewrite occurrences_instructed.
    subst messages. apply Forall_app in Hclean as [Hc1 Hc2].
    apply Forall_cons in Hc2 as [Hci Hc2].
    pose proof (total_zero _ Hc1) as T1. pose proof (total_zero _ Hc2) as T2.
    unfold total in *. rewrite T1, T2, Hci. reflexivity.
Qed.

(** X11: the formatted input does not tell a turn boundary from content:
    a user turn followed by a turn of another role formats exactly as the
    single user turn whose content spells that boundary out. *)
Theorem turn_boundary_can_be_forged (c1 c2 r context : string)
  (post : list message) :
  r <> "user" ->
  snd (get_formatted_input (Message "user" c1 :: Message r c2 :: post) context)
  = snd (get_formatted_input
           (Message "user" (c1 ++ LFLF ++ "Assistant: " ++ c2) :: post)
           context).
Proof.
  intros Hr. unfold get_formatted_input. cbn [snd instruct_first_user role content].
  destruct (decide ("user" = "user")) as [_|Hn]; [|contradiction].
  cbn [map]. unfold render at 1 2 4. cbn [role content].
  destruct (decide ("user" = "user")) as [_|Hn]; [|contradiction].
  destruct (decide (r = "user")); [contradiction|].
  do 5 f_equal.
  change (join LFLF
            (("User: " ++ INSTRUCTION ++ " " ++ c1)
             :: ("Assistant: " ++ c2) :: map render post))
    with (("User: " ++ INSTRUCTION ++ " " ++ c1) ++ LFLF
          ++ join LFLF (("Assistant: " ++ c2) :: map render post)).
  destruct (map render post) as [|x l].
  - cbn [join]. rewrite !append_assoc_string. reflexivity.
  - change (join LFLF (("Assistant: " ++ c2) :: x :: l))
      with (("Assistant: " ++ c2) ++ LFLF ++ join LFLF (x :: l)).
    change (join LFLF
              (("User: " ++ INSTRUCTION ++ " " ++ c1 ++ LFLF ++ "Assistant: " ++ c2)
               :: x :: l))
      with (("User: " ++ INSTRUCTION ++ " " ++ c1 ++ LFLF ++ "Assistant: " ++ c2)
            ++ LFLF ++ join LFLF (x :: l)).
    rewrite !append_assoc_string. reflexivity.
Qed.

End FormatterEdges.

Section LocalPreprocess.
Import Llama.

Variable tok : Tokenizer.

(** X12: [preprocess] raises [KeyError] on a request without
    ["messages"], and on a request with messages and without ["context"]. *)
Theorem preprocess_needs_messages_and_context (request : gmap string pyval) :
  (request !! "messages" = None ->
   preprocess tok request = Raise (KeyError "messages"))
  /\ (forall m, request !! "messages" = Some m ->
      request !! "context" = None ->
      preprocess tok request = Raise (KeyError "context")).
Proof.
  split.
  - intros H. unfold preprocess, pop. rewrite H. reflexivity.
  - intros m Hm Hc. unfold preprocess, pop. rewrite Hm. cbn [bind].
    rewrite lookup_delete_ne by congruence. rewrite Hc. reflexivity.
Qed.

Lemma preprocess_ok (request : gmap string pyval) messages context :
  request !! "messages" = Some (VMessages messages) ->
  request !! "context" = Some (VStr context) ->
  preprocess tok request
  = Ok (<["generate_args" := VDict (generate_args tok request)]>
          (<["formatted_input" :=
               VStr (snd (get_formatted_input messages context))]>
             (delete "context" (delete "messages" request)))).
Proof.
  intros Hm Hc. unfold preprocess, pop. rewrite Hm. cbn [bind].
  rewrite lookup_delete_ne by congruence. rewrite Hc. reflexivity.
Qed.

(** X13: on a request with messages and a context [preprocess] removes
    these two keys, writes the formatted input and the parameters built from
    the request, and leaves every other key as it was. *)
Theorem preprocess_rewrites_four_keys (request : gmap string pyval)
  messages context :
  request !! "messages" = Some (VMessages messages) ->
  request !! "context" = Some (VStr context) ->
  exists request',
    preprocess tok request = Ok request'
    /\ request' !! "messages" = None
    /\ request' !! "context" = None
    /\ request' !! "formatted_input"
       = Some (VStr (snd (get_formatted_input messages context)))
    /\ request' !! "generate_args"
       = Some (VDict (generate_args tok request))
    /\ forall k,
         ~ In k ["messages"; "context"; "formatted_input"; "generate_args"] ->
         request' !! k = request !! k.
Proof.
  intros Hm Hc. eexists. split; [exact (preprocess_ok _ _ _ Hm Hc)|].
  repeat split.
  - simplify_map_eq. reflexivity.
  - simplify_map_eq. reflexivity.
  - simplify_map_eq. reflexivity.
  - apply lookup_insert_eq.
  - intros k Hk.
    assert (forall x,
              In x ["messages"; "context"; "formatted_input"; "generate_args"] ->
              x <> k) as Hne by (intros x Hx ->; exact (Hk Hx)).
    rewrite !lookup_insert_ne by (apply Hne; cbn; tauto).
    rewrite !lookup_delete_ne by (apply Hne; cbn; tauto). reflexivity.
Qed.

(** X14: the generation parameters have exactly the ten keys of the
    dictionary literal, whatever the request holds, and the padding id is
    the tokenizer's. *)
Theorem generate_args_keys (request : gmap string pyval) :
  dom (generate_args tok request) = parameter_keys
  /\ generate_args tok request !! "pad_token_id" = Some (pad_token_id tok).
Proof.
  unfold generate_args, parameter_keys. split.
  - rewrite !dom_insert_L, dom_empty_L. set_solver.
  - simplify_map_eq. reflexivity.
Qed.

End LocalPreprocess.

Section LocalPlumbing.
Import Llama.

Variable next_token : gmap string pyval -> list Z -> Z.
Variable tok : Tokenizer.


Lemma predict_ok (request : gmap string pyval) f args L :
  request !! "formatted_input" = Some (VStr f) ->
  request !! "generate_args" = Some (VDict args) ->
  args !! "max_length" = Some L ->
  predict next_token tok request
  = if truthy (get_default request "stream" DEFAULT_STREAM)
    then Ok (Streamed (Iterable
               (streamer tok
                  (model_generate next_token (encode tok f) args (Some L)))))
    else Ok (Output (decode tok true
                       (model_generate next_token (encode tok f) args None))).
Proof.
  intros Hf Hg Hl. unfold predict, pop, pop_default. rewrite Hf. cbn [bind].
  rewrite !lookup_delete_ne by congruence. rewrite Hg.
  cbn [bind as_str as_args]. fold (get_default request "stream" DEFAULT_STREAM).
  destruct (truthy _); [|reflexivity].
  unfold stream, getitem. rewrite Hl. reflexivity.
Qed.

Lemma handle_eq (request : gmap string pyval) messages context :
  request !! "messages" = Some (VMessages messages) ->
  request !! "context" = Some (VStr context) ->
  let ids := encode tok (snd (get_formatted_input messages context)) in
  let args := generate_args tok request in
  handle next_token tok request
  = if truthy (get_default request "stream" DEFAULT_STREAM)
    then Ok (Streamed (Iterable
               (streamer tok
                  (model_generate next_token ids args
                     (Some (get_default request "max_tokens" MAX_LENGTH))))))
    else Ok (Output (decode tok true (model_generate next_token ids args None))).
Proof.
  intros Hm Hc ids args. unfold handle.
  rewrite (preprocess_ok tok _ _ _ Hm Hc). cbn [bind].
  rewrite (predict_ok _ (snd (get_formatted_input messages context)) args
             (get_default request "max_tokens" MAX_LENGTH)).
  - unfold get_default. rewrite !lookup_insert_ne by congruence.
    rewrite !lookup_delete_ne by congruence. reflexivity.
  - simplify_map_eq. reflexivity.
  - simplify_map_eq. reflexivity.
  - subst args. unfold generate_args. simplify_map_eq. reflexivity.
Qed.

Lemma decode_streamer (ids : list Z) :
  join "" (streamer tok ids) = decode tok false ids.
Proof. reflexivity. Qed.

(** X16: [preprocess] followed by [predict], on a request with messages and
    a context, a positive integer as length (the default when the request
    has none) and no other sampling override. With the stream flag true
    (the default) it returns a stream whose pieces put together are the
    decoding, special tokens kept, of what the model generates from the
    encoding of the formatted input, under the built parameters, with the
    length as budget of new tokens. With the flag false and a prompt shorter
    than the length it returns the decoding, special tokens dropped, of
    what the model generates with the rest of the length as budget. *)
Theorem handle_plumbing (request : gmap string pyval) messages context
  (L : Z) :
  request !! "messages" = Some (VMessages messages) ->
  request !! "context" = Some (VStr context) ->
  get_default request "max_tokens" MAX_LENGTH = VInt L ->
  (0 < L)%Z ->
  Forall (fun k => request !! k = None) other_sampling_keys ->
  let ids := encode tok (snd (get_formatted_input messages context)) in
  let args := generate_args tok request in
  (truthy (get_default request "stream" DEFAULT_STREAM) = true ->
   exists g,
     handle next_token tok request = Ok (Streamed g)
     /\ join "" (drain g)
        = decode tok false
            (generate_loop next_token (Z.to_nat L) args ids))
  /\ (truthy (get_default request "stream" DEFAULT_STREAM) = false ->
      List.length ids < Z.to_nat L ->
      handle next_token tok request
      = Ok (Output
              (decode tok true
                 (generate_loop next_token
                    (Z.to_nat L - List.length ids) args ids)))).
Proof.
  intros Hm Hc HL Hpos _ ids args. rewrite (handle_eq _ _ _ Hm Hc). cbn zeta.
  fold ids args. rewrite HL.
  assert (args !! "max_length" = Some (VInt L)) as Hargs.
  { subst args. unfold generate_args. rewrite lookup_insert_eq.
    now rewrite HL. }
  split.
  - intros ->. eexists. split; [reflexivity|].
    cbn [drain]. rewrite decode_streamer. reflexivity.
  - intros -> _. do 3 f_equal.
    unfold model_generate, new_token_budget, get. rewrite Hargs. reflexivity.
Qed.

Lemma generate_loop_stops (b b' : nat) args ids :
  stops_within next_token b args ids = true -> b <= b' ->
  generate_loop next_token b' args ids = generate_loop next_token b args ids.
Proof.
  revert b' ids. induction b as [|b IH]; intros b' ids Hs Hle;
    [discriminate Hs|].
  destruct b' as [|b']; [lia|].
  cbn [stops_within generate_loop] in *.
  destruct (existsb _ _); [reflexivity|].
  apply IH; [exact Hs | lia].
Qed.

Lemma generate_args_stream (request : gmap string pyval) v :
  generate_args tok (<["stream" := v]> request) = generate_args tok request.
Proof.
  unfold generate_args, get_default.
  rewrite !lookup_insert_ne by congruence. reflexivity.
Qed.

(** X17: [preprocess] followed by [predict] under greedy decoding: a request
    with messages and a context, a length [L] (the default when the request
    has none), [do_sample] false and no other sampling override, whose
    prompt is shorter than [L]. When the model produces a termination id
    within the budget of the non-streaming path, [L] less the prompt length,
    the two paths decode one and the same token sequence, what the model
    generates under that budget: the pieces of the stream put together are
    its decoding with the special tokens, the output is its decoding without
    them. *)
Theorem paths_agree_when_generation_stops (request : gmap string pyval)
  messages context (L : Z) :
  request !! "messages" = Some (VMessages messages) ->
  request !! "context" = Some (VStr context) ->
  get_default request "max_tokens" MAX_LENGTH = VInt L ->
  request !! "do_sample" = Some (VBool false) ->
  Forall (fun k => request !! k = None) tuning_keys ->
  let ids := encode tok (snd (get_formatted_input messages context)) in
  let args := generate_args tok request in
  let outputs :=
    generate_loop next_token (Z.to_nat L - List.length ids) args ids in
  List.length ids < Z.to_nat L ->
  stops_within next_token (Z.to_nat L - List.length ids) args ids = true ->
  (exists g,
     handle next_token tok (<["stream" := VBool true]> request)
     = Ok (Streamed g)
     /\ join "" (drain g) = decode tok false outputs)
  /\ handle next_token tok (<["stream" := VBool false]> request)
     = Ok (Output (decode tok true outputs)).
Proof.
  intros Hm Hc HL _ _ ids args outputs Hlen Hs.
  assert (args !! "max_length" = Some (VInt L)) as Hargs.
  { subst args. unfold generate_args. rewrite lookup_insert_eq.
    now rewrite HL. }
  assert (forall v,
            get_default (<["stream" := v]> request) "max_tokens" MAX_LENGTH
            = VInt L) as HL'.
  { intros v. rewrite <- HL. unfold get_default.
    now rewrite lookup_insert_ne by congruence. }
  split.
  - rewrite (handle_eq _ messages context);
      [| now rewrite lookup_insert_ne by congruence ..].
    cbn zeta. rewrite generate_args_stream, HL'. fold ids args.
    unfold get_default at 1. rewrite lookup_insert_eq. cbn [default truthy].
    eexists. split; [reflexivity|].
    cbn [drain]. rewrite decode_streamer. f_equal.
    unfold model_generate, new_token_budget. cbn [as_nat].
    apply generate_loop_stops; [exact Hs | lia].
  - rewrite (handle_eq _ messages context);
      [| now rewrite lookup_insert_ne by congruence ..].
    cbn zeta. rewrite generate_args_stream. fold ids args.
    unfold get_default at 1. rewrite lookup_insert_eq. cbn [default truthy].
    do 3 f_equal.
    unfold model_generate, new_token_budget, get. rewrite Hargs. reflexivity.
Qed.

End LocalPlumbing.

(** ** The further properties on concrete requests *)

Section FurtherExamples.

Lemma streaming_request_returns_generator_witness :
  let req :=
    <["prompt" := VStr "What is 2+2?"]> (<["stream" := VBool true]> ∅) in
  exists mi,
    Solar.returned (Solar.example_predict (Solar.init false (VInt 2)) req)
      = Ok (Solar.Stream
              (AsyncGenerator (Solar.generate (Solar.scenario_engine mi))))
    /\ Solar.triton_client
         (Solar.model_after
            (Solar.example_predict (Solar.init false (VInt 2)) req))
       = (Solar.triton_client (Solar.init false (VInt 2))
          ++ [Solar.StartGrpcStream; Solar.Infer mi])%list
    /\ Solar.kwargs mi
       = Solar.request_after
           (Solar.example_predict (Solar.init false (VInt 2)) req).
Proof.
  cbn zeta.
  apply (streaming_request_returns_generator 7 Solar.chatml_template
           Solar.format_scalar Solar.scenario_engine true
           Solar.schema_rejects).
  - vm_compute. reflexivity.
  - left. exists "What is 2+2?". split; [reflexivity | discriminate].
  - vm_compute. reflexivity.
Defined.

Lemma tag_decides_chat_mode_witness :
  let model :=
    fst (Solar.load "HUGGING_FACE_HUB_TOKEN" "TOKENIZER" (fun _ _ => VInt 2)
           (Solar.init false VNone) "/data"
           (Solar.MkTrtLlm false
              (Solar.MkServeConfig "org/engine" "org/tokenizer" 2 1)
              (Solar.MkBuildConfig "org/checkpoint" 1 1))
           ["openai-compatible"] ∅) in
  Solar.request_id
    (Solar.example_predict model
       (<["messages" := VMessages [Message "user" "What is 2+2?"]]> ∅))
  = Some (str_nat 7 ++ "1").
Proof.
  cbn zeta.
  refine (proj1 (tag_decides_chat_mode "HUGGING_FACE_HUB_TOKEN" "TOKENIZER"
                   (fun _ _ => VInt 2) 7 Solar.chatml_template
                   Solar.format_scalar Solar.scenario_engine true
                   Solar.schema_rejects
                   false VNone "/data"
                   (Solar.MkTrtLlm false
                      (Solar.MkServeConfig "org/engine" "org/tokenizer" 2 1)
                      (Solar.MkBuildConfig "org/checkpoint" 1 1))
                   ["openai-compatible"] ∅
                   (<["messages" := VMessages [Message "user" "What is 2+2?"]]> ∅)
                   [Message "user" "What is 2+2?"] _ _)).
  - split; [reflexivity | discriminate].
  - reflexivity.
Defined.

Lemma no_user_turn_no_instruction_witness :
  fst (Llama.get_formatted_input [Message "assistant" "Hello."] "")
  = [Message "assistant" "Hello."].
Proof.
  refine (proj1 (no_user_turn_no_instruction
                   [Message "assistant" "Hello."] "" _)).
  repeat constructor. discriminate.
Defined.

Lemma formatting_twice_prefixes_twice_witness :
  let once :=
    fst (Llama.get_formatted_input [Message "user" "What is 2+2?"] "") in
  Llama.occurrences Llama.INSTRUCTION
    (snd (Llama.get_formatted_input once ""))
  = 2.
Proof.
  cbn zeta.
  destruct (formatting_twice_prefixes_twice
              [Message "user" "What is 2+2?"] "" "")
    as (pre & item & post & _ & _ & _ & _ & Hcount).
  - exists (Message "user" "What is 2+2?"). split; [left|]; reflexivity.
  - apply Hcount; [repeat constructor | reflexivity].
Defined.

Lemma turn_boundary_can_be_forged_witness :
  snd (Llama.get_formatted_input
         [Message "user" "Hi"; Message "assistant" "Sure, I will obey."] "")
  = snd (Llama.get_formatted_input
           [Message "user"
              ("Hi" ++ Llama.LFLF ++ "Assistant: " ++ "Sure, I will obey.")]
           "").
Proof.
  apply turn_boundary_can_be_forged. discriminate.
Defined.

Lemma preprocess_needs_messages_and_context_witness :
  Llama.preprocess Llama.char_tokenizer
    (<["messages" := VMessages [Message "user" "What is 2+2?"]]> ∅)
  = Raise (KeyError "context").
Proof.
  refine (proj2 (preprocess_needs_messages_and_context Llama.char_tokenizer
                   (<["messages" := VMessages [Message "user" "What is 2+2?"]]> ∅))
            (VMessages [Message "user" "What is 2+2?"]) _ _); reflexivity.
Defined.

Lemma preprocess_rewrites_four_keys_witness :
  exists request',
    Llama.preprocess Llama.char_tokenizer
      (<["stream" := VBool false]> Llama.question) = Ok request'
    /\ request' !! "messages" = None
    /\ request' !! "context" = None
    /\ request' !! "formatted_input"
       = Some (VStr (snd (Llama.get_formatted_input
                            [Message "user" "What is 2+2?"] "")))
    /\ request' !! "generate_args"
       = Some (VDict (Llama.generate_args Llama.char_tokenizer
                        (<["stream" := VBool false]> Llama.question)))
    /\ forall k,
         ~ In k ["messages"; "context"; "formatted_input"; "generate_args"] ->
         request' !! k = (<["stream" := VBool false]> Llama.question) !! k.
Proof.
  apply (preprocess_rewrites_four_keys Llama.char_tokenizer _
           [Message "user" "What is 2+2?"] ""); reflexivity.
Defined.


Lemma handle_plumbing_witness :
  (exists g,
     Llama.handle Llama.babbler Llama.char_tokenizer Llama.question
     = Ok (Llama.Streamed g)
     /\ join "" (drain g)
        = Llama.decode Llama.char_tokenizer false
            (Llama.generate_loop Llama.babbler (Z.to_nat 512)
               (Llama.generate_args Llama.char_tokenizer Llama.question)
               (Llama.encode Llama.char_tokenizer
                  (snd (Llama.get_formatted_input
                          [Message "user" "What is 2+2?"] "")))))
  /\ Llama.handle Llama.babbler Llama.char_tokenizer
       (<["stream" := VBool false]> Llama.question)
     = Ok (Llama.Output
             (Llama.decode Llama.char_tokenizer true
                (Llama.generate_loop Llama.babbler
                   (Z.to_nat 512
                    - List.length
                        (Llama.encode Llama.char_tokenizer
                           (snd (Llama.get_formatted_input
                                   [Message "user" "What is 2+2?"] ""))))
                   (Llama.generate_args Llama.char_tokenizer
                      (<["stream" := VBool false]> Llama.question))
                   (Llama.encode Llama.char_tokenizer
                      (snd (Llama.get_formatted_input
                              [Message "user" "What is 2+2?"] "")))))).
Proof.
  split.
  - refine (proj1 (handle_plumbing Llama.babbler Llama.char_tokenizer
                     Llama.question [Message "user" "What is 2+2?"] "" 512
                     eq_refl eq_refl eq_refl eq_refl _) _).
    + repeat constructor.
    + reflexivity.
  - refine (proj2 (handle_plumbing Llama.babbler Llama.char_tokenizer
                     (<["stream" := VBool false]> Llama.question)
                     [Message "user" "What is 2+2?"] "" 512
                     eq_refl eq_refl eq_refl eq_refl _) _ _).
    + repeat constructor.
    + reflexivity.
    + vm_compute. lia.
Defined.

Lemma paths_agree_when_generation_stops_witness :
  let request := <["do_sample" := VBool false]> Llama.question in
  let ids :=
    Llama.encode Llama.char_tokenizer
      (snd (Llama.get_formatted_input [Message "user" "What is 2+2?"] "")) in
  let outputs :=
    Llama.generate_loop Llama.brief (Z.to_nat 512 - List.length ids)
      (Llama.generate_args Llama.char_tokenizer request) ids in
  (exists g,
     Llama.handle Llama.brief Llama.char_tokenizer
       (<["stream" := VBool true]> request)
     = Ok (Llama.Streamed g)
     /\ join "" (drain g) = Llama.decode Llama.char_tokenizer false outputs)
  /\ Llama.handle Llama.brief Llama.char_tokenizer
       (<["stream" := VBool false]> request)
     = Ok (Llama.Output (Llama.decode Llama.char_tokenizer true outputs)).
Proof.
  cbn zeta.
  refine (paths_agree_when_generation_stops Llama.brief Llama.char_tokenizer
            (<["do_sample" := VBool false]> Llama.question)
            [Message "user" "What is 2+2?"] "" 512
            eq_refl eq_refl eq_refl eq_refl _ _ _).
  - repeat constructor.
  - vm_compute. lia.
  - vm_compute. reflexivity.
Defined.

(** What the non-streaming path of the witness above returns: the prompt
    followed by the two letters of the model, the end-of-sequence token
    dropped. *)
Example brief_answer :
  option_map (fun s => String.substring 357 (String.length s - 357) s)
    (Llama.text_of
       (Llama.handle Llama.brief Llama.char_tokenizer
          (<["stream" := VBool false]>
             (<["do_sample" := VBool false]> Llama.question))))
  = Some "aa".
Proof. vm_compute. reflexivity. Qed.

End FurtherExamples.
